(** * LekaLink cloud cost calculator ([cloud_cost_calculator/app.py])

    A shallow embedding of the Streamlit script: the price-sheet loader that
    runs at module level, [validate_inputs], the cost formula of the button
    handler, [create_pdf] and [send_email], followed by the properties the
    specification states about them.

    Numbers are the ones CPython computes with: [int] is [Z], [float] is
    IEEE 754 binary64 with round-to-nearest-even, taken from the Standard
    Library's executable specification [SpecFloat] (precision 53, [emax]
    1024).  A rate read from the price sheet is a [numpy.float64], the same
    binary64 number with the same arithmetic, or, when the price column
    holds whole numbers only, a [numpy.int64], whose products wrap around at
    64 bits.  Text is [string]; a Python exception is a value of [exn]; code
    that writes to the page, prints, or assigns a global is a function of an
    explicit state. *)

From Stdlib Require Import ZArith QArith Qabs Qpower List String Ascii Bool Lia.
From Stdlib Require Import DecimalString Floats.SpecFloat.
Import ListNotations.

Open Scope Z_scope.
Open Scope string_scope.

(* ================================================================== *)
(** * Python numbers *)

(** ** [float]: binary64 *)

Definition float := spec_float.

Definition prec : Z := 53.
Definition emax : Z := 1024.

Definition fadd : float -> float -> float := SFadd prec emax.
Definition fsub : float -> float -> float := SFsub prec emax.
Definition fmul : float -> float -> float := SFmul prec emax.
Definition fdiv : float -> float -> float := SFdiv prec emax.
Definition fneg : float -> float := SFopp.

(** [x == y], [x < y], [x <= y] on floats: false whenever a NaN is involved,
    and [0.0 == -0.0]. *)
Definition feqb : float -> float -> bool := SFeqb.
Definition fltb : float -> float -> bool := SFltb.
Definition fleb : float -> float -> bool := SFleb.

Definition is_nan (x : float) : bool :=
  match x with S754_nan => true | _ => false end.

Definition is_finite (x : float) : bool :=
  match x with S754_zero _ | S754_finite _ _ _ => true | _ => false end.

(** [float(n)] for an [int] [n], before the overflow check: the nearest
    binary64 value, ties to even. *)
Definition float_of_Z (n : Z) : float := binary_normalize prec emax n 0 false.

(** The value of a decimal literal [n / 10^k], such as [864.35] for
    [decimal 86435 2].  Both [n] and [10^k] are exact in binary64 for the
    literals of this program, so the correctly rounded quotient is the
    correctly rounded literal. *)
Definition decimal (n : Z) (k : Z) : float :=
  fdiv (float_of_Z n) (float_of_Z (10 ^ k)).

Declare Scope f64_scope.
Delimit Scope f64_scope with f64.
Bind Scope f64_scope with float.
Infix "+" := fadd : f64_scope.
Infix "-" := fsub : f64_scope.
Infix "*" := fmul : f64_scope.
Infix "/" := fdiv : f64_scope.
Notation "- x" := (fneg x) : f64_scope.

(** The rational a finite float stands for. *)
Definition float_value (x : float) : option Q :=
  match x with
  | S754_zero _ => Some 0%Q
  | S754_finite s m e =>
      Some ((if s then - inject_Z (Zpos m) else inject_Z (Zpos m))
            * Qpower 2 e)%Q
  | S754_infinity _ | S754_nan => None
  end.

(** The sign of a float as IEEE 754 has it: [Some true] for a negative
    value, [Some false] for a non-negative one, nothing for a NaN. *)
Definition fsign (x : float) : option bool :=
  match x with
  | S754_nan => None
  | S754_zero s | S754_infinity s | S754_finite s _ _ => Some s
  end.

(** ** Exceptions and results *)

Inductive exn : Type :=
| FileNotFoundError (msg : string)
| KeyError (key : string)
| ZeroDivisionError (msg : string)
| OverflowError (msg : string)
| UnboundLocalError (msg : string)
| TypeError (msg : string)
| ValueError (msg : string)
| OtherException (msg : string).   (* any other subclass of [Exception] *)

(** [str(e)], as the f-strings of the handlers print it. *)
Definition str_exn (e : exn) : string :=
  match e with
  | FileNotFoundError msg | ZeroDivisionError msg | OverflowError msg
  | UnboundLocalError msg | TypeError msg | ValueError msg
  | OtherException msg => msg
  | KeyError key => "'" ++ key ++ "'"
  end.

Inductive result (A : Type) : Type :=
| Ok (a : A)
| Raise (e : exn).
Arguments Ok {A} a.
Arguments Raise {A} e.

(** ** Arithmetic that can raise *)

(** [float(n)]: [OverflowError] when the rounded value leaves the finite
    range. *)
Definition float_of_int (n : Z) : result float :=
  match float_of_Z n with
  | S754_infinity _ => Raise (OverflowError "int too large to convert to float")
  | x => Ok x
  end.

(** [n * x] for an [int] [n] and a [float] [x]. *)
Definition int_mul_float (n : Z) (x : float) : result float :=
  match float_of_int n with
  | Ok n' => Ok (n' * x)%f64
  | Raise e => Raise e
  end.

(** [x / y] on floats. *)
Definition float_truediv (x y : float) : result float :=
  if feqb y (S754_zero false) then Raise (ZeroDivisionError "float division by zero")
  else Ok (x / y)%f64.

(** [a / b] on the ints an image size is made of: the floats are exact there. *)
Definition int_truediv (a b : Z) : result float :=
  if (b =? 0)%Z then Raise (ZeroDivisionError "division by zero")
  else Ok (float_of_Z a / float_of_Z b)%f64.

(** ** A number as pandas hands it over: [numpy.int64] or [float]

    A price taken from the sheet is a [numpy.float64], or a [numpy.int64]
    when its column holds whole numbers only; a default rate is a Python
    [float].  The two kinds of float are the same binary64 numbers with the
    same arithmetic and the same [:.2f]. *)
Inductive npnum : Type :=
| NpInt64 (n : Z)
| NpFloat (x : float).

Definition in_int64 (n : Z) : bool := ((- 2 ^ 63 <=? n) && (n <? 2 ^ 63))%Z.

(** The 64-bit two's complement number congruent to [n]: what an [int64]
    operation stores when its exact result is [n]. *)
Definition wrap64 (n : Z) : Z := (n + 2 ^ 63) mod 2 ^ 64 - 2 ^ 63.

(** The number as a [float64], the way [+] and [*] convert an [int64] that
    meets a float, and the way [:.2f] converts it: the nearest binary64
    value, ties to even. *)
Definition np_float (v : npnum) : float :=
  match v with
  | NpInt64 n => float_of_Z n
  | NpFloat x => x
  end.

(** [pd.isna(v)]: an [int64] is never missing. *)
Definition np_isna (v : npnum) : bool :=
  match v with
  | NpInt64 _ => false
  | NpFloat x => is_nan x
  end.

(** [n * v] for a Python [int] [n].  With a float the int is converted
    first.  With an [int64] the product is an [int64] and wraps around (numpy
    warns on the console's error stream and goes on); an [n] that is itself
    outside [int64], which the number input never delivers, is refused by
    numpy 2 with [OverflowError]. *)
Definition int_mul_np (n : Z) (v : npnum) : result npnum :=
  match v with
  | NpFloat x =>
      match int_mul_float n x with
      | Ok y => Ok (NpFloat y)
      | Raise e => Raise e
      end
  | NpInt64 k =>
      if in_int64 n then Ok (NpInt64 (wrap64 (n * k)))
      else Raise (OverflowError
                    ("Python integer " ++ NilZero.string_of_int (Z.to_int n)
                     ++ " out of bounds for int64"))
  end.

(** [v * 1024], for the int literal [1024]: an [int64] stays an [int64]
    and wraps around, a float is multiplied by [1024.0]. *)
Definition np_mul_1024 (v : npnum) : npnum :=
  match v with
  | NpInt64 n => NpInt64 (wrap64 (n * 1024))
  | NpFloat x => NpFloat (x * float_of_Z 1024)%f64
  end.

(** ** A number that is an [int] or a [float]

    [percentage_savings] is a float on one branch of its conditional
    expression and the int [0] on the other. *)
Inductive pynum : Type :=
| PyInt (n : Z)
| PyFloat (x : float).

Definition num_neg (v : pynum) : pynum :=
  match v with
  | PyInt n => PyInt (- n)
  | PyFloat x => PyFloat (- x)%f64
  end.

Definition num_sign (v : pynum) : option bool :=
  match v with
  | PyInt n => Some (n <? 0)%Z
  | PyFloat x => fsign x
  end.

(* ================================================================== *)
(** * Text *)

Definition dquote : string := String (ascii_of_nat 34) EmptyString.
Definition newline : string := String (ascii_of_nat 10) EmptyString.

(** Python's [not s] for a string. *)
Definition is_empty (s : string) : bool :=
  match s with EmptyString => true | String _ _ => false end.

(** The characters [str.strip] removes, among those latin-1 can decode. *)
Definition is_space (c : ascii) : bool :=
  let n := N_of_ascii c in
  (((9 <=? n) && (n <=? 13)) || ((28 <=? n) && (n <=? 32))
   || (n =? 133) || (n =? 160))%N.

Fixpoint lstrip (s : string) : string :=
  match s with
  | EmptyString => EmptyString
  | String c s' => if is_space c then lstrip s' else s
  end.

Fixpoint rstrip (s : string) : string :=
  match s with
  | EmptyString => EmptyString
  | String c s' =>
      match rstrip s' with
      | EmptyString => if is_space c then EmptyString else String c EmptyString
      | r => String c r
      end
  end.

Definition strip (s : string) : string := rstrip (lstrip s).

(** [s.replace(' ', '_')]. *)
Fixpoint replace_space (s : string) : string :=
  match s with
  | EmptyString => EmptyString
  | String c s' =>
      String (if Ascii.eqb c " "%char then "_"%char else c) (replace_space s')
  end.

(** ** The format [:.2f] *)

Definition string_of_nat_Z (n : Z) : string :=
  NilZero.string_of_uint (N.to_uint (Z.to_N n)).

(** The integer nearest to [n / d] for [0 <= n] and [0 < d], ties to even. *)
Definition round_half_even (n d : Z) : Z :=
  let q := n / d in
  match (2 * (n mod d)) ?= d with
  | Lt => q
  | Gt => q + 1
  | Eq => if Z.even q then q else q + 1
  end.

(** [m * 2^e] in hundredths, rounded to the nearest one. *)
Definition hundredths (m : positive) (e : Z) : Z :=
  match e with
  | Zneg p => round_half_even (Zpos m * 100) (2 ^ Zpos p)
  | _ => Zpos m * 100 * 2 ^ e
  end.

Definition two_digits (n : Z) : string :=
  if (n <? 10)%Z then "0" ++ string_of_nat_Z n else string_of_nat_Z n.

Definition format_2f (x : float) : string :=
  match x with
  | S754_nan => "nan"
  | S754_infinity s => if s then "-inf" else "inf"
  | S754_zero s => if s then "-0.00" else "0.00"
  | S754_finite s m e =>
      let h := hundredths m e in
      (if s then "-" else EmptyString)
        ++ string_of_nat_Z (h / 100) ++ "." ++ two_digits (h mod 100)
  end.

(** [f"{v:.2f}"] for an int converts it to a float first; the only int this
    program formats is [0]. *)
Definition num_format_2f (v : pynum) : string :=
  match v with
  | PyInt n => format_2f (float_of_Z n)
  | PyFloat x => format_2f x
  end.

(** [f"{v:.2f}"] for a number from pandas: an [int64] is converted to a
    float first, as an int is. *)
Definition np_format_2f (v : npnum) : string := format_2f (np_float v).

(* ================================================================== *)
(** * The world the script runs in *)

(** ** What a run shows

    The PDF is the list of operations performed on the reportlab canvas;
    the page and the console are the list of calls made on them, oldest
    first. *)

Inductive canvas_op : Type :=
| setFont (name : string) (size : Z)
| setFillColorRGB (r g b : float)
| drawString (x y : float) (text : string)
| drawImage (x y width height : float)
| showPage
| save.

Definition pdf := list canvas_op.

Inductive event : Type :=
| st_error (msg : string)
| st_warning (msg : string)
| st_success (msg : string)
| st_write (msg : string)
| st_markdown (html : string)
| st_download_button (label : string) (data : pdf) (file_name mime : string)
| print (msg : string)
| sendmail (sender recipient subject body : string)
           (attachment : option (pdf * string))
| components_html (html : string) (height width : Z)
| st_columns (spec : Z)
| st_subheader (body : string)
| st_number_input (label : string) (min_value value step : pynum)
                  (format : option string) (key : string)
| st_text_input (label key : string)
| st_button (label : string).

(** ** What a run reads *)

(** A field of the price sheet as pandas reads it: a number written as a
    whole number ([100]), which fits 64 bits; a number written in any other
    way ([100.00], [1e3], [inf]); text that is not a number; or nothing.
    (Columns that [read_csv] types as booleans or as unsigned 64-bit whole
    numbers are outside this model.) *)
Inductive cell : Type :=
| CInt (n : Z)
| CNum (x : float)
| CStr (s : string)
| CNaN.

(** The frame [pd.read_csv] returns: the header names as written in the
    file and the rows under them. *)
Record DataFrame : Type := {
  columns : list string;
  rows : list (list cell)
}.

(** The logo file, the same for the two [os.path.exists] of one call: not
    there; there but rejected by [ImageReader]; or an image of a given
    size, which [drawImage] may still fail to embed. *)
Inductive logo_file : Type :=
| LogoMissing
| LogoUnreadable (err : exn)
| LogoImage (img_width img_height : Z) (draw_error : option exn).

(** The SMTP exchange of [send_email], from building the message to
    [sendmail]: it goes through or one of its steps raises. *)
Inductive smtp_outcome : Type :=
| SmtpDelivers
| SmtpRaises (err : exn).

Record env : Type := {
  assets_dir_exists : bool;               (* os.path.exists("assets") *)
  price_sheet : option (result DataFrame);
      (* [None]: no file at PRICE_SHEET_PATH; otherwise what read_csv does *)
  logo : logo_file;
  smtp : smtp_outcome
}.

(** ** The state the script changes: its three rate globals and its output *)

Record state : Type := {
  VM_RATE : npnum;
  STORAGE_RATE_PER_TB : npnum;
  BANDWIDTH_RATE_PER_MBPS : npnum;
  out : list event
}.

(* ================================================================== *)
(** * Statements: a state and exception monad *)

Definition M (S A : Type) : Type := S -> result A * S.

Definition ret {S A} (a : A) : M S A := fun s => (Ok a, s).

Definition bind {S A B} (m : M S A) (k : A -> M S B) : M S B :=
  fun s =>
    match m s with
    | (Ok a, s') => k a s'
    | (Raise e, s') => (Raise e, s')
    end.

Definition raise {S A} (e : exn) : M S A := fun s => (Raise e, s).

(** [try: m  except Exception as e: h e]: the state reached when the
    exception was raised is the one the handler starts from. *)
Definition try_except {S A} (m : M S A) (h : exn -> M S A) : M S A :=
  fun s =>
    match m s with
    | (Ok a, s') => (Ok a, s')
    | (Raise e, s') => h e s'
    end.

(** An expression that can raise, used as a statement. *)
Definition eval {S A} (r : result A) : M S A := fun s => (r, s).

Declare Scope py_scope.
Delimit Scope py_scope with py.
Notation "x <- m ;; k" := (bind m (fun x => k))
  (at level 61, m at next level, right associativity) : py_scope.
Notation "m ;; k" := (bind m (fun _ => k))
  (at level 61, right associativity) : py_scope.
Open Scope py_scope.

(** The state once one more call was made on the page or the console. *)
Definition log (s : state) (ev : event) : state :=
  {| VM_RATE := VM_RATE s;
     STORAGE_RATE_PER_TB := STORAGE_RATE_PER_TB s;
     BANDWIDTH_RATE_PER_MBPS := BANDWIDTH_RATE_PER_MBPS s;
     out := (out s ++ [ev])%list |}.

Definition emit (ev : event) : M state unit := fun s => (Ok tt, log s ev).

Definition set_VM_RATE (x : npnum) : M state unit :=
  fun s => (Ok tt, {| VM_RATE := x;
                      STORAGE_RATE_PER_TB := STORAGE_RATE_PER_TB s;
                      BANDWIDTH_RATE_PER_MBPS := BANDWIDTH_RATE_PER_MBPS s;
                      out := out s |}).

Definition set_STORAGE_RATE_PER_TB (x : npnum) : M state unit :=
  fun s => (Ok tt, {| VM_RATE := VM_RATE s;
                      STORAGE_RATE_PER_TB := x;
                      BANDWIDTH_RATE_PER_MBPS := BANDWIDTH_RATE_PER_MBPS s;
                      out := out s |}).

Definition get_state : M state state := fun s => (Ok s, s).

(* ================================================================== *)
(** * Pricing configuration (lines 22-94) *)

Definition DEFAULT_VM_RATE : float := decimal 86435 2.              (* 864.35 *)
Definition DEFAULT_STORAGE_RATE_PER_TB : float := decimal 87040 2.  (* 870.40 *)
Definition DEFAULT_BANDWIDTH_RATE_PER_MBPS : float := decimal 750 2. (* 7.50 *)

(** Lines 29-31: the globals start at the defaults. *)
Definition initial_state : state := {|
  VM_RATE := NpFloat DEFAULT_VM_RATE;
  STORAGE_RATE_PER_TB := NpFloat DEFAULT_STORAGE_RATE_PER_TB;
  BANDWIDTH_RATE_PER_MBPS := NpFloat DEFAULT_BANDWIDTH_RATE_PER_MBPS;
  out := []
|}.

Definition assets_dir : string := "assets".
Definition PRICE_SHEET_PATH : string :=
  "assets/Leka Link_Channel Partner_VDC Calculator.xlsx - VDC Calculation.csv".

Definition VM_LABEL : string := "Virtual Data Centre(Allocation Resource Pool)".
Definition STORAGE_LABEL : string := "vStorage - NVME/SSD".

(** ** The pandas operations the loader uses *)

(** Positions of a name among the header names. *)
Fixpoint positions (name : string) (names : list string) (i : nat) : list nat :=
  match names with
  | [] => []
  | n :: rest =>
      if String.eqb n name then i :: positions name rest (S i)
      else positions name rest (S i)
  end.

(** What [df[name]] selects: the column of that name, or, when several
    columns have it, the frame made of them. *)
Inductive selection : Type :=
| Column (cells : list cell)
| Frame (width : nat).

(** [df[name]]: [KeyError] when no column has the name. *)
Definition getitem (df : DataFrame) (name : string) : result selection :=
  match positions name (columns df) 0 with
  | [] => Raise (KeyError name)
  | [j] => Ok (Column (map (fun r => nth j r CNaN) (rows df)))
  | l => Ok (Frame (List.length l))
  end.

(** [df.columns = df.columns.str.strip()]. *)
Definition strip_columns (df : DataFrame) : DataFrame :=
  {| columns := map strip (columns df); rows := rows df |}.

(** Whether a column of fields is one of whole numbers only, which pandas
    holds as [int64]. *)
Definition int64_column (col : list cell) : bool :=
  forallb (fun c => match c with CInt n => in_int64 n | _ => false end) col.

(** One field of a numeric column: as it is in an [int64] column, as a
    [float64] otherwise, where text that is not a number and a missing
    field are NaN. *)
Definition numeric (int64 : bool) (c : cell) : npnum :=
  match c with
  | CInt n => if int64 then NpInt64 n else NpFloat (float_of_Z n)
  | CNum x => NpFloat x
  | CStr _ | CNaN => NpFloat S754_nan
  end.

(** [pd.to_numeric(col, errors='coerce')] on a column. *)
Definition to_numeric (col : list cell) : list npnum :=
  map (numeric (int64_column col)) col.

(** [pd.to_numeric(df[name], errors='coerce')]: a frame is refused. *)
Definition pd_to_numeric (sel : selection) : result (list npnum) :=
  match sel with
  | Column col => Ok (to_numeric col)
  | Frame _ => Raise (TypeError "arg must be a list, tuple, 1-d array, or Series")
  end.

(** [description == label] on one field. *)
Definition cell_is (label : string) (c : cell) : bool :=
  match c with
  | CStr s => String.eqb s label
  | CInt _ | CNum _ | CNaN => false
  end.

(** The prices of the rows whose description is the label, in file order. *)
Definition loc_unit_monthly (label : string) (description : list cell)
    (unit_monthly : list npnum) : list npnum :=
  map snd (filter (fun p => cell_is label (fst p))
                  (combine description unit_monthly)).

(** [df.loc[df['Description'] == label]['Unit Monthly']]: comparing a frame
    gives a frame of booleans, which [.loc] refuses as a key. *)
Definition loc_description (label : string) (description : selection)
    (unit_monthly : list npnum) : result (list npnum) :=
  match description with
  | Column col => Ok (loc_unit_monthly label col unit_monthly)
  | Frame _ => Raise (ValueError "Cannot index with multidimensional key")
  end.

(** [not row.empty and not pd.isna(row['Unit Monthly'].iloc[0])], with the
    price it lets through: the first matching row decides. *)
Definition first_price (row : list npnum) : option npnum :=
  match row with
  | [] => None
  | x :: _ => if np_isna x then None else Some x
  end.

(** ** The loading block (lines 37-94) *)

Definition load_block (e : env) : M state unit :=
  (if negb (assets_dir_exists e) then
     emit (st_error ("Error: The '" ++ assets_dir ++ "' directory was not found. Please ensure your CSV file is inside a folder named '" ++ assets_dir ++ "' in the same directory as your app.py."));;
     raise (FileNotFoundError ("Directory '" ++ assets_dir ++ "' not found."))
   else ret tt);;
  price_df <- match price_sheet e with
              | None =>
                  emit (st_error ("Error: The price sheet CSV file was not found at '" ++ PRICE_SHEET_PATH ++ "'. Please ensure the file name is exactly 'Leka Link_Channel Partner_VDC Calculator.xlsx - VDC Calculation.csv' and it's inside the 'assets' folder."));;
                  raise (FileNotFoundError ("File '" ++ PRICE_SHEET_PATH ++ "' not found."))
              | Some read_csv => eval read_csv
              end;;
  let price_df := strip_columns price_df in
  raw <- eval (getitem price_df "Unit Monthly");;
  unit_monthly <- eval (pd_to_numeric raw);;
  description <- eval (getitem price_df "Description");;
  vm_row <- eval (loc_description VM_LABEL description unit_monthly);;
  match first_price vm_row with
  | Some x => set_VM_RATE x
  | None =>
      set_VM_RATE (NpFloat DEFAULT_VM_RATE);;
      emit (print "Warning: Could not find 'Virtual Data Centre(Allocation Resource Pool)' or its price in price sheet. Using default VM rate.")
  end;;
  description <- eval (getitem price_df "Description");;
  storage_row <- eval (loc_description STORAGE_LABEL description unit_monthly);;
  match first_price storage_row with
  | Some x => set_STORAGE_RATE_PER_TB (np_mul_1024 x)
  | None =>
      set_STORAGE_RATE_PER_TB (NpFloat DEFAULT_STORAGE_RATE_PER_TB);;
      emit (print "Warning: Could not find 'vStorage - NVME/SSD' or its price in price sheet. Using default Storage rate.")
  end.

Definition load_handler (ex : exn) : M state unit :=
  match ex with
  | FileNotFoundError _ =>
      emit (print ("Caught FileNotFoundError: " ++ str_exn ex ++ ". Using default pricing rates."))
  | KeyError _ =>
      emit (st_error ("Error reading column from price sheet: " ++ str_exn ex ++ ". Ensure 'Description' and 'Unit Monthly' columns exist and are correctly formatted. Using default pricing rates."))
  | _ =>
      emit (st_error ("An unexpected error occurred while loading prices from CSV: " ++ str_exn ex ++ ". Using default pricing rates."))
  end.

Definition load_prices (e : env) : M state unit :=
  try_except (load_block e) load_handler.

(* ================================================================== *)
(** * [validate_inputs] (lines 356-373) *)

Definition validate_inputs (company_name contact_name job_title email phone : string)
  : M state bool :=
  if is_empty company_name then
    emit (st_error "Company Name is required.");; ret false
  else if is_empty contact_name then
    emit (st_error "Contact Name is required.");; ret false
  else if is_empty job_title then
    emit (st_error "Job Title is required.");; ret false
  else if is_empty email then
    emit (st_error "Email is required.");; ret false
  else if is_empty phone then
    emit (st_error "Phone Number is required.");; ret false
  else ret true.

(* ================================================================== *)
(** * [create_pdf] (lines 206-315) *)

(** The dictionary the handler passes to [create_pdf], one field per key. *)
Module quote_data.
Record t : Type := {
  company_name : string;
  contact_name : string;
  job_title : string;
  email : string;
  phone : string;
  vms : Z;
  storage : float;
  bandwidth : float;
  current_cost : float;
  lekalink_cost : float;
  monthly_savings : float;
  percentage_savings : pynum;
  vm_rate : npnum;
  storage_rate_per_tb : npnum;
  bandwidth_rate_per_mbps : npnum
}.
End quote_data.

Definition LEKALINK_LOGO_PATH : string := "assets/LL_Stacked_Gradient.png".

(** reportlab's constants: [inch = 72.0] and [letter = (612.0, 792.0)]. *)
Definition inch : float := float_of_Z 72.
Definition letter : float * float := (float_of_Z 612, float_of_Z 792).

(** The locals of one call of [create_pdf] whose binding matters, with the
    globals the call can reach.  A local is [None] until it is assigned. *)
Record frame : Type := {
  c : pdf;
  y_position_logo : option float;
  y_position : option float;
  globals : state
}.

Definition canvas (op : canvas_op) : M frame unit :=
  fun f => (Ok tt, {| c := (c f ++ [op])%list; y_position_logo := y_position_logo f;
                      y_position := y_position f; globals := globals f |}).

Definition set_y_position_logo (y : float) : M frame unit :=
  fun f => (Ok tt, {| c := c f; y_position_logo := Some y;
                      y_position := y_position f; globals := globals f |}).

Definition set_y_position (y : float) : M frame unit :=
  fun f => (Ok tt, {| c := c f; y_position_logo := y_position_logo f;
                      y_position := Some y; globals := globals f |}).

(** Reading a local: [UnboundLocalError] when it was never assigned. *)
Definition local (name : string) (get : frame -> option float) : M frame float :=
  fun f =>
    match get f with
    | Some y => (Ok y, f)
    | None =>
        (Raise (UnboundLocalError
                  ("cannot access local variable '" ++ name
                   ++ "' where it is not associated with a value")), f)
    end.

(** A statement on the globals, run from inside the call. *)
Definition in_globals {A} (m : M state A) : M frame A :=
  fun f =>
    let (r, s) := m (globals f) in
    (r, {| c := c f; y_position_logo := y_position_logo f;
           y_position := y_position f; globals := s |}).

(** [c.drawString(inch, y_position, text)]. *)
Definition c_drawString (text : string) : M frame unit :=
  y <- local "y_position" y_position;;
  canvas (drawString inch y text).

(** [y_position -= k * inch], for the literal [k]. *)
Definition move_down (k : float) : M frame unit :=
  y <- local "y_position" y_position;;
  set_y_position (y - k * inch)%f64.

Definition logo_exists (l : logo_file) : bool :=
  match l with LogoMissing => false | _ => true end.

(** [logo = ImageReader(LEKALINK_LOGO_PATH)] then [logo.getSize()]. *)
Definition ImageReader_getSize (l : logo_file) : result (Z * Z) :=
  match l with
  | LogoImage w h _ => Ok (w, h)
  | LogoUnreadable err => Raise err
  | LogoMissing => Raise (OtherException ("Cannot open resource " ++ LEKALINK_LOGO_PATH))
  end.

(** [c.drawImage(logo, x, y, width=w, height=h)]. *)
Definition c_drawImage (l : logo_file) (x y w h : float) : M frame unit :=
  match l with
  | LogoImage _ _ (Some err) => raise err
  | _ => canvas (drawImage x y w h)
  end.

Definition PURPLE_RGB : float * float * float :=
  (decimal 3176 4, decimal 706 4, decimal 5059 4).

Definition fill_purple : canvas_op :=
  let '(r, g, b) := PURPLE_RGB in setFillColorRGB r g b.
Definition fill_black : canvas_op :=
  setFillColorRGB (float_of_Z 0) (float_of_Z 0) (float_of_Z 0).

(** Lines 216-233: the logo, inside its [try]. *)
Definition logo_block (e : env) : M frame unit :=
  let (width, height) := letter in
  try_except
    (if logo_exists (logo e) then
       size <- eval (ImageReader_getSize (logo e));;
       let (img_width, img_height) := size : Z * Z in
       let logo_display_width := (decimal 15 1 * inch)%f64 in
       ratio <- eval (int_truediv img_height img_width);;
       let logo_display_height := (logo_display_width * ratio)%f64 in
       let x_position_logo := ((width - logo_display_width) / float_of_Z 2)%f64 in
       set_y_position_logo
         (height - logo_display_height - decimal 5 1 * inch)%f64;;
       y <- local "y_position_logo" y_position_logo;;
       c_drawImage (logo e) x_position_logo y
                   logo_display_width logo_display_height
     else
       in_globals (emit (st_warning ("LekaLink logo not found at "
                                     ++ LEKALINK_LOGO_PATH
                                     ++ ". Skipping logo in PDF."))))
    (fun ex =>
       in_globals (emit (st_error ("Error loading LekaLink logo for PDF: "
                                   ++ str_exn ex)))).

(** Lines 237-313: the text of the quote. *)
Definition text_block (e : env) (data : quote_data.t) : M frame unit :=
  let (width, height) := letter in
  (if negb (logo_exists (logo e)) then
     set_y_position (height - decimal 15 1 * inch)%f64
   else
     y <- local "y_position_logo" y_position_logo;;
     set_y_position (y - decimal 5 1 * inch)%f64);;
  (* Title *)
  canvas (setFont "Helvetica-Bold" 24);;
  canvas fill_purple;;
  c_drawString "LekaLink Cloud Cost Quote";;
  move_down (decimal 5 1);;
  (* Company and Contact Info *)
  canvas fill_purple;;
  canvas (setFont "Helvetica-Bold" 14);;
  c_drawString "Client Information:";;
  move_down (decimal 3 1);;
  canvas fill_black;;
  canvas (setFont "Helvetica" 12);;
  c_drawString ("Company: " ++ quote_data.company_name data);;
  move_down (decimal 25 2);;
  c_drawString ("Contact: " ++ quote_data.contact_name data
                 ++ " (" ++ quote_data.job_title data ++ ")");;
  move_down (decimal 25 2);;
  c_drawString ("Email: " ++ quote_data.email data);;
  move_down (decimal 25 2);;
  c_drawString ("Phone: " ++ quote_data.phone data);;
  move_down (decimal 5 1);;
  (* Current Costs *)
  canvas fill_purple;;
  canvas (setFont "Helvetica-Bold" 14);;
  c_drawString "Current Cloud Costs:";;
  move_down (decimal 3 1);;
  canvas fill_black;;
  canvas (setFont "Helvetica" 12);;
  c_drawString ("Monthly Cost: R" ++ format_2f (quote_data.current_cost data));;
  move_down (decimal 5 1);;
  (* LekaLink Estimated Costs *)
  canvas fill_purple;;
  canvas (setFont "Helvetica-Bold" 14);;
  c_drawString "LekaLink Estimated Costs:";;
  move_down (decimal 3 1);;
  canvas fill_black;;
  canvas (setFont "Helvetica" 12);;
  vm_amount <- eval (int_mul_np (quote_data.vms data) (quote_data.vm_rate data));;
  c_drawString ("Virtual Machines: R" ++ np_format_2f vm_amount);;
  move_down (decimal 25 2);;
  c_drawString ("Storage: R"
                 ++ format_2f (quote_data.storage data
                               * np_float (quote_data.storage_rate_per_tb data))%f64);;
  move_down (decimal 25 2);;
  c_drawString ("Bandwidth: R"
                 ++ format_2f (quote_data.bandwidth data
                               * np_float (quote_data.bandwidth_rate_per_mbps data))%f64);;
  move_down (decimal 25 2);;
  canvas (setFont "Helvetica-Bold" 12);;
  c_drawString ("Total LekaLink Estimated Cost: R"
                 ++ format_2f (quote_data.lekalink_cost data));;
  move_down (decimal 5 1);;
  (* Savings *)
  canvas fill_purple;;
  canvas (setFont "Helvetica-Bold" 14);;
  c_drawString "Potential Savings:";;
  move_down (decimal 3 1);;
  canvas fill_black;;
  canvas (setFont "Helvetica" 12);;
  (if fleb (float_of_Z 0) (quote_data.monthly_savings data) then
     canvas (setFillColorRGB (decimal 8 2) (decimal 64 2) (decimal 29 2));;
     c_drawString ("Monthly Savings: R"
                    ++ format_2f (quote_data.monthly_savings data));;
     move_down (decimal 25 2);;
     c_drawString ("Percentage Savings: "
                    ++ num_format_2f (quote_data.percentage_savings data) ++ "%")
   else
     canvas (setFillColorRGB (decimal 91 2) (decimal 30 2) (decimal 24 2));;
     c_drawString ("Monthly Increase: R"
                    ++ format_2f (- quote_data.monthly_savings data)%f64);;
     move_down (decimal 25 2);;
     c_drawString ("Percentage Increase: "
                    ++ num_format_2f (num_neg (quote_data.percentage_savings data))
                    ++ "%"));;
  canvas showPage;;
  canvas save.

(** The call: a fresh frame, the body, and the canvas buffer as the value. *)
Definition create_pdf (e : env) (data : quote_data.t) : M state pdf :=
  fun s =>
    let f0 := {| c := []; y_position_logo := None; y_position := None;
                 globals := s |} in
    match (logo_block e;; text_block e data) f0 with
    | (Ok _, f) => (Ok (c f), globals f)
    | (Raise ex, f) => (Raise ex, globals f)
    end.

(* ================================================================== *)
(** * [send_email] (lines 317-353) *)

Definition SENDER_EMAIL : string := "adriennek@intellicomms.co.za".

(** The attachment is a rendered document, never empty, so only the file
    name decides [if attachment_data and attachment_filename]. *)
Definition send_email (e : env) (recipient_email subject body : string)
    (attachment_data : option pdf) (attachment_filename : option string)
  : M state bool :=
  try_except
    (let attachment :=
       match attachment_data, attachment_filename with
       | Some data, Some name =>
           if is_empty name then None else Some (data, name)
       | _, _ => None
       end in
     match smtp e with
     | SmtpRaises err => raise err
     | SmtpDelivers =>
         emit (sendmail SENDER_EMAIL recipient_email subject body attachment);;
         ret true
     end)
    (fun ex =>
       emit (st_error ("Failed to send email: " ++ str_exn ex));;
       ret false).

(* ================================================================== *)
(** * The button handler (lines 399-479) *)

(** What the widgets hold when the script runs: the four number inputs, the
    five text inputs and whether the button was pressed. *)
Record form : Type := {
  vms : Z;
  storage : float;
  bandwidth : float;
  current_cost : float;
  company_name : string;
  contact_name : string;
  job_title : string;
  email : string;
  phone : string;
  button : bool
}.

(** ** Calculation logic (lines 404-406) *)

(** [(vms * VM_RATE) + (storage * STORAGE_RATE_PER_TB)
     + (bandwidth * BANDWIDTH_RATE_PER_MBPS)], with the rates of the state.
    [storage] and [bandwidth] are floats, so the last two products and both
    sums are float operations, on the rates and on the first product
    converted to [float64] where they are [int64]. *)
Definition lekalink_cost (s : state) (w : form) : result float :=
  match int_mul_np (vms w) (VM_RATE s) with
  | Ok vm_cost =>
      Ok (np_float vm_cost + storage w * np_float (STORAGE_RATE_PER_TB s)
          + bandwidth w * np_float (BANDWIDTH_RATE_PER_MBPS s))%f64
  | Raise ex => Raise ex
  end.

(** [current_cost - lekalink_cost]. *)
Definition monthly_savings (current_cost lekalink_cost : float) : float :=
  (current_cost - lekalink_cost)%f64.

(** [(monthly_savings / current_cost * 100) if current_cost != 0 else 0]. *)
Definition percentage_savings (monthly_savings current_cost : float)
  : result pynum :=
  if negb (feqb current_cost (float_of_Z 0)) then
    match float_truediv monthly_savings current_cost with
    | Ok q => Ok (PyFloat (q * float_of_Z 100)%f64)
    | Raise ex => Raise ex
    end
  else Ok (PyInt 0).

(** ** The texts built from the results *)

Definition sales_email : string := "adriennek@intellicomms.co.za".

Definition quote_file_name (company_name : string) : string :=
  "LekaLink_Cloud_Quote_" ++ replace_space company_name ++ ".pdf".

Definition savings_html (monthly_savings : float) (percentage_savings : pynum)
  : list event :=
  if fleb (float_of_Z 0) monthly_savings then
    [ st_markdown ("<p class=" ++ dquote ++ "savings-positive" ++ dquote
                   ++ ">**Monthly Savings:** R" ++ format_2f monthly_savings
                   ++ "</p>");
      st_markdown ("<p class=" ++ dquote ++ "savings-positive" ++ dquote
                   ++ ">**Percentage Savings:** "
                   ++ num_format_2f percentage_savings ++ "%</p>") ]
  else
    [ st_markdown ("<p class=" ++ dquote ++ "savings-negative" ++ dquote
                   ++ ">**Monthly Increase:** R"
                   ++ format_2f (- monthly_savings)%f64 ++ "</p>");
      st_markdown ("<p class=" ++ dquote ++ "savings-negative" ++ dquote
                   ++ ">**Percentage Increase:** "
                   ++ num_format_2f (num_neg percentage_savings) ++ "%</p>") ].

Definition email_body (w : form) (lekalink_cost monthly_savings : float)
    (percentage_savings : pynum) : string :=
  newline ++ "A new LekaLink Cloud Cost Quote has been generated for:" ++ newline
  ++ newline
  ++ "Company: " ++ company_name w ++ newline
  ++ "Contact: " ++ contact_name w ++ " (" ++ job_title w ++ ")" ++ newline
  ++ "Email: " ++ email w ++ newline
  ++ "Phone: " ++ phone w ++ newline
  ++ newline
  ++ "Current Monthly Cost: R" ++ format_2f (current_cost w) ++ newline
  ++ "LekaLink Estimated Monthly Cost: R" ++ format_2f lekalink_cost ++ newline
  ++ newline
  ++ (if fleb (float_of_Z 0) monthly_savings then
        "Potential Monthly Savings: R" ++ format_2f monthly_savings ++ newline
        ++ "Potential Percentage Savings: "
        ++ num_format_2f percentage_savings ++ "%" ++ newline
      else
        "Monthly Cost Increase: R" ++ format_2f (- monthly_savings)%f64 ++ newline
        ++ "Percentage Cost Increase: "
        ++ num_format_2f (num_neg percentage_savings) ++ "%" ++ newline)
  ++ newline ++ "Please find the detailed quote attached." ++ newline.

Fixpoint emit_all (evs : list event) : M state unit :=
  match evs with
  | [] => ret tt
  | ev :: rest => emit ev;; emit_all rest
  end.

(** ** The body of [if st.button("Save me Money"):] (lines 400-479) *)

(** Lines 408-418: the results card. *)
Definition show_results (cost savings : float) (percentage : pynum)
  : M state unit :=
  emit (st_markdown ("<div class=" ++ dquote ++ "results-card" ++ dquote ++ ">"));;
  emit (st_write "### Your Estimated Savings with LekaLink");;
  emit (st_write ("**LekaLink Estimated Monthly Cost:** R" ++ format_2f cost));;
  emit_all (savings_html savings percentage);;
  emit (st_markdown "</div>").

(** Lines 421-437: the dictionary handed to [create_pdf]. *)
Definition make_quote_data (s : state) (w : form) (cost savings : float)
    (percentage : pynum) : quote_data.t :=
  {| quote_data.company_name := company_name w;
     quote_data.contact_name := contact_name w;
     quote_data.job_title := job_title w;
     quote_data.email := email w;
     quote_data.phone := phone w;
     quote_data.vms := vms w;
     quote_data.storage := storage w;
     quote_data.bandwidth := bandwidth w;
     quote_data.current_cost := current_cost w;
     quote_data.lekalink_cost := cost;
     quote_data.monthly_savings := savings;
     quote_data.percentage_savings := percentage;
     quote_data.vm_rate := VM_RATE s;
     quote_data.storage_rate_per_tb := STORAGE_RATE_PER_TB s;
     quote_data.bandwidth_rate_per_mbps := BANDWIDTH_RATE_PER_MBPS s |}.

Definition send_failed_message : string :=
  "Failed to send the quote to the sales team. Please check the console for errors.".
Definition send_success_message : string :=
  "Quote generated and sent to the sales team at " ++ sales_email ++ "!".

(** Lines 439-476: render, offer the download, mail the sales team. *)
Definition deliver (e : env) (w : form) (cost savings : float)
    (percentage : pynum) (data : quote_data.t) : M state unit :=
  pdf_output <- create_pdf e data;;
  emit (st_download_button "Download Quote as PDF" pdf_output
          (quote_file_name (company_name w)) "application/pdf");;
  sent <- send_email e sales_email
            ("New LekaLink Cloud Cost Quote for " ++ company_name w)
            (email_body w cost savings percentage)
            (Some pdf_output) (Some (quote_file_name (company_name w)));;
  if sent then emit (st_success send_success_message)
  else emit (st_error send_failed_message).

(** Lines 402-476: what runs once the inputs are validated. *)
Definition quote_block (e : env) (w : form) : M state unit :=
  s <- get_state;;
  cost <- eval (lekalink_cost s w);;
  let savings := monthly_savings (current_cost w) cost in
  percentage <- eval (percentage_savings savings (current_cost w));;
  show_results cost savings percentage;;
  deliver e w cost savings percentage
          (make_quote_data s w cost savings percentage).

Definition on_click (e : env) (w : form) : M state unit :=
  valid <- validate_inputs (company_name w) (contact_name w) (job_title w)
                           (email w) (phone w);;
  if valid then quote_block e w
  else ret tt.   (* the messages were shown by validate_inputs *)

(* ================================================================== *)
(** * The page around the handler (lines 96-203 and 375-398) *)

(** The lines of the style sheet, as written between the triple quotes. *)
Definition CUSTOM_CSS_lines : list string :=
  [
    "@import url('https://fonts.googleapis.com/css2?family=Inter:wght@300;400;600;700&display=swap');";
    EmptyString;
    "/* Apply font family globally */";
    "html, body, [class*=" ++ dquote ++ "st-" ++ dquote ++ "] {";
    "    font-family: 'Inter', sans-serif;";
    "}";
    EmptyString;
    "/* Force all h1, h2, h3, p, and label elements to the desired purple color */";
    "h1, h2, h3, p, label {";
    "    color: #511281 !important;";
    "}";
    EmptyString;
    "/* Target Streamlit's main content div and its children to force color */";
    "div[data-testid=" ++ dquote ++ "stAppViewContainer" ++ dquote ++ "] * {";
    "    color: #511281 !important;";
    "}";
    EmptyString;
    "/* Apply border and rounded corners to the main app container */";
    ".stApp {";
    "    background: linear-gradient(180deg, #f0f2f6 0%, #e0e5ec 100%); /* Light gradient background */";
    "    padding: 2rem; /* Adjusted padding to ensure content is inside border */";
    "    border: 3px solid #511281 !important; /* Added !important to force border color */";
    "    border-radius: 20px; /* Rounded corners */";
    "    box-shadow: 0 8px 16px rgba(0, 0, 0, 0.2); /* Added a subtle shadow to the border */";
    "}";
    EmptyString;
    "/* Header Gradient */";
    ".header-section {";
    "    background: linear-gradient(90deg, #6a11cb 0%, #2575fc 100%); /* Purple to blue gradient */";
    "    padding: 2rem;";
    "    border-radius: 15px;";
    "    margin-bottom: 2rem;";
    "    text-align: center;";
    "    box-shadow: 0 4px 8px rgba(0, 0, 0, 0.2);";
    "}";
    ".header-section h1 {";
    "    font-weight: 700;";
    "    margin-bottom: 0.5rem;";
    "}";
    ".header-section p {";
    "    color: rgba(255, 255, 255, 0.8) !important; /* Keep this white for contrast in the header, with !important */";
    "    font-size: 1.1rem;";
    "}";
    EmptyString;
    "/* Input Card Styling */";
    ".stTextInput > div > div > input,";
    ".stNumberInput > div > div > input {";
    "    border-radius: 10px;";
    "    border: 1px solid #ddd;";
    "    padding: 0.75rem 1rem;";
    "    box-shadow: 0 2px 4px rgba(0, 0, 0, 0.05);";
    "}";
    EmptyString;
    "/* Button Styling */";
    ".stButton > button {";
    "    background-color: #16a34a; /* LekaLink Green */";
    "    color: white;";
    "    font-weight: 600;";
    "    padding: 0.75rem 1.5rem;";
    "    border-radius: 10px;";
    "    border: none;";
    "    transition: background-color 0.3s ease, transform 0.2s ease;";
    "    box-shadow: 0 4px 8px rgba(0, 0, 0, 0.2);";
    "}";
    ".stButton > button:hover {";
    "    background-color: #128a3a; /* Darker green on hover */";
    "    transform: translateY(-2px);";
    "}";
    ".stButton > button:active {";
    "    transform: translateY(0);";
    "}";
    EmptyString;
    "/* Results Card Styling */";
    ".results-card {";
    "    background: linear-gradient(135deg, #e0e5ec 0%, #f0f2f6 100%); /* Light gradient */";
    "    border-radius: 15px;";
    "    padding: 2rem;";
    "    margin-top: 2rem;";
    "    box-shadow: 0 6px 12px rgba(0, 0, 0, 0.15);";
    "    border: 1px solid #d0d5db;";
    "}";
    ".results-card p {";
    "    font-size: 1.1rem;";
    "    margin-bottom: 0.5rem;";
    "}";
    ".results-card .savings-positive {";
    "    color: #16a34a !important; /* LekaLink Green for positive savings, with !important */";
    "    font-weight: 700;";
    "    font-size: 1.3rem;";
    "}";
    ".results-card .savings-negative {";
    "    color: #e74c3c !important; /* Red for negative savings/increase, with !important */";
    "    font-weight: 700;";
    "    font-size: 1.3rem;";
    "}";
    EmptyString;
    "/* Remove Streamlit header/footer */";
    "#MainMenu {visibility: hidden;}";
    "footer {visibility: hidden;}";
    "header {visibility: hidden;}" ].

(** [CUSTOM_CSS]: a line break, then each line with its line break. *)
Definition CUSTOM_CSS : string :=
  newline ++ String.concat EmptyString (map (fun l => l ++ newline) CUSTOM_CSS_lines).

(** Line 203. *)
Definition inject_css : M state unit :=
  emit (components_html ("<style>" ++ CUSTOM_CSS ++ "</style>") 0 0).

Definition zero_float : pynum := PyFloat (float_of_Z 0).

(** Lines 378-399: the header, the two columns with their widgets, and the
    button.  What the widgets return is in the [form]. *)
Definition page_layout : list event :=
  [ st_markdown ("<div class=" ++ dquote ++ "header-section" ++ dquote
                 ++ "><p>Estimate your savings when you switch to LekaLink Cloud Services!</p></div>");
    st_columns 2;
    st_subheader "Your Current Cloud Usage";
    st_number_input "Number of Virtual Machines" (PyInt 0) (PyInt 0) (PyInt 1)
                    None "vms";
    st_number_input "Storage (TB)" zero_float zero_float (PyFloat (decimal 1 1))
                    (Some "%.1f") "storage";
    st_number_input "Bandwidth (Mbps)" zero_float zero_float
                    (PyFloat (float_of_Z 1)) (Some "%.1f") "bandwidth";
    st_number_input "Current Monthly Cloud Cost (R)" zero_float zero_float
                    (PyFloat (float_of_Z 100)) (Some "%.2f") "current_cost";
    st_subheader "Your Contact Information";
    st_text_input "Company Name" "company_name";
    st_text_input "Contact Name" "contact_name";
    st_text_input "Job Title" "job_title";
    st_text_input "Email" "email";
    st_text_input "Phone Number" "phone";
    st_button "Save me Money" ].

(** ** One run of the script

    Streamlit runs the file from the top on every interaction: the rates are
    set to the defaults and loaded, the style sheet is injected, the page is
    laid out and, when the button was pressed, its body runs. *)
Definition script (e : env) (w : form) : M state unit :=
  load_prices e;;
  inject_css;;
  emit_all page_layout;;
  if button w then on_click e w else ret tt.

Definition run (e : env) (w : form) : result unit * state :=
  script e w initial_state.

(* ================================================================== *)
(** * Vocabulary of the statements *)

(** All five contact fields are filled in. *)
Definition contact_complete (w : form) : bool :=
  negb (is_empty (company_name w)) && negb (is_empty (contact_name w))
  && negb (is_empty (job_title w)) && negb (is_empty (email w))
  && negb (is_empty (phone w)).

(** The message of the first empty contact field, in the order of the form. *)
Definition first_missing (w : form) : option string :=
  let required :=
    [ (company_name w, "Company Name is required.");
      (contact_name w, "Contact Name is required.");
      (job_title w, "Job Title is required.");
      (email w, "Email is required.");
      (phone w, "Phone Number is required.") ] in
  option_map snd (find (fun p => is_empty (fst p)) required).

(** The state after a list of calls on the page or the console. *)
Definition logs (s : state) (evs : list event) : state := fold_left log evs s.

(** A statement that only ever adds to the output [o] of its state. *)
Definition grows {S A} (o : S -> list event) (m : M S A) : Prop :=
  forall s, exists l, o (snd (m s)) = (o s ++ l)%list.

(** The output as seen from inside a call of [create_pdf]. *)
Definition frame_out (f : frame) : list event := out (globals f).

(** What reading [y_position_logo] raises before it was assigned. *)
Definition unbound_y_position_logo : exn :=
  UnboundLocalError
    "cannot access local variable 'y_position_logo' where it is not associated with a value".

(** Equal as numbers, the way two floats can be: [==] holds, or both are
    NaN. *)
Definition same_number (x y : float) : Prop :=
  feqb x y = true \/ (is_nan x = true /\ is_nan y = true).

(** The position of a column once the header names are stripped, when
    exactly one column has the name. *)
Definition column_index (name : string) (df : DataFrame) : option nat :=
  match positions name (map strip (columns df)) 0 with
  | [j] => Some j
  | _ => None
  end.

(** The fields of column [j], top to bottom. *)
Definition column (j : nat) (df : DataFrame) : list cell :=
  map (fun r => nth j r CNaN) (rows df).

(** The price the sheet lists for a label: the [Unit Monthly] field (column
    [u]) of the first row whose [Description] (column [d]) is the label,
    provided pandas reads that field as a number.  It is an [int64] when
    the whole column is one of whole numbers. *)
Definition listed_price (df : DataFrame) (d u : nat) (label : string)
  : option npnum :=
  match find (fun r => cell_is label (nth d r CNaN)) (rows df) with
  | Some r => let x := numeric (int64_column (column u df)) (nth u r CNaN) in
              if np_isna x then None else Some x
  | None => None
  end.

(** The sheet a run gets its prices from, with the positions of its
    [Description] and [Unit Monthly] columns; nothing when the directory or
    the file is missing, [read_csv] raises, or one of the two columns is not
    there exactly once. *)
Definition loaded_sheet (e : env) : option (DataFrame * nat * nat) :=
  if assets_dir_exists e then
    match price_sheet e with
    | Some (Ok df) =>
        match column_index "Description" df, column_index "Unit Monthly" df with
        | Some d, Some u => Some (df, d, u)
        | _, _ => None
        end
    | _ => None
    end
  else None.

(** The amount for the machines as lines 404 and 283 compute it from a
    count the number input can deliver: a float product with a float rate,
    a 64-bit product with an [int64] rate. *)
Definition machines_amount (n : Z) (rate : npnum) : npnum :=
  match rate with
  | NpInt64 r => NpInt64 (wrap64 (n * r))
  | NpFloat x => NpFloat (float_of_Z n * x)%f64
  end.


(** A logo with which [create_pdf] reaches its [return]. *)
Definition logo_usable (l : logo_file) : bool :=
  match l with
  | LogoMissing => true
  | LogoUnreadable _ => false
  | LogoImage img_width _ _ => negb (img_width =? 0)%Z
  end.

(** What [create_pdf] tells the user about the logo, for a logo whose size
    could be read. *)
Definition logo_events (l : logo_file) : list event :=
  match l with
  | LogoMissing =>
      [st_warning ("LekaLink logo not found at " ++ LEKALINK_LOGO_PATH
                   ++ ". Skipping logo in PDF.")]
  | LogoUnreadable err | LogoImage _ _ (Some err) =>
      [st_error ("Error loading LekaLink logo for PDF: " ++ str_exn err)]
  | LogoImage _ _ None => []
  end.

(** The lines of text of a document, top to bottom. *)
Fixpoint texts (doc : pdf) : list string :=
  match doc with
  | [] => []
  | drawString _ _ text :: rest => text :: texts rest
  | _ :: rest => texts rest
  end.

(** The four lines of the estimate: the amount per resource, as
    [create_pdf] computes it from the rates in its argument, and the total
    it was given. *)
Definition item_lines (data : quote_data.t) (vm_amount : npnum) : list string :=
  [ "Virtual Machines: R" ++ np_format_2f vm_amount;
    "Storage: R"
      ++ format_2f (quote_data.storage data
                    * np_float (quote_data.storage_rate_per_tb data))%f64;
    "Bandwidth: R"
      ++ format_2f (quote_data.bandwidth data
                    * np_float (quote_data.bandwidth_rate_per_mbps data))%f64;
    "Total LekaLink Estimated Cost: R"
      ++ format_2f (quote_data.lekalink_cost data) ].

(** Whether the document embeds an image. *)
Definition has_image (doc : pdf) : bool :=
  existsb (fun op => match op with drawImage _ _ _ _ => true | _ => false end) doc.

(** What every run puts on the page between the loader and the handler:
    the style sheet of line 203, then the layout. *)
Definition page_events : list event :=
  components_html ("<style>" ++ CUSTOM_CSS ++ "</style>") 0 0 :: page_layout.

(** What the results card shows (lines 408-418). *)
Definition results_events (cost savings : float) (percentage : pynum)
  : list event :=
  ([ st_markdown ("<div class=" ++ dquote ++ "results-card" ++ dquote ++ ">");
     st_write "### Your Estimated Savings with LekaLink";
     st_write ("**LekaLink Estimated Monthly Cost:** R" ++ format_2f cost) ]
   ++ savings_html savings percentage
   ++ [ st_markdown "</div>" ])%list.

(** ** The cost engine in the words of the specification

    Follows the specification (section 3), not the code: rates and
    quantities are decimals and the arithmetic is exact.  The code's floats
    are compared with these in the worked example. *)

Definition spec_estimated_cost
    (vm_count storage_tb bandwidth_mbps : Q)
    (vm_rate storage_rate_per_tb bandwidth_rate_per_mbps : Q) : Q :=
  (vm_count * vm_rate + storage_tb * storage_rate_per_tb
   + bandwidth_mbps * bandwidth_rate_per_mbps)%Q.

Definition spec_monthly_savings (current_monthly_cost estimated_cost : Q) : Q :=
  (current_monthly_cost - estimated_cost)%Q.

(** ** Inputs of the examples *)

(** The worked example of the specification: 2 machines, 1.0 TB, 10 Mbps,
    a current cost of 3000. *)
Definition example_form : form := {|
  vms := 2;
  storage := decimal 10 1;
  bandwidth := float_of_Z 10;
  current_cost := float_of_Z 3000;
  company_name := "Acme Ltd";
  contact_name := "Ann Lee";
  job_title := "CTO";
  email := "ann@acme.example";
  phone := "555 0100";
  button := true
|}.

(** One machine and nothing else, with the current cost left at its initial
    value [0.0]. *)
Definition one_vm_form : form := {|
  vms := 1;
  storage := float_of_Z 0;
  bandwidth := float_of_Z 0;
  current_cost := float_of_Z 0;
  company_name := "Acme Ltd";
  contact_name := "Ann Lee";
  job_title := "CTO";
  email := "ann@acme.example";
  phone := "555 0100";
  button := true
|}.

(** Company name and email left empty. *)
Definition two_missing_form : form := {|
  vms := 2;
  storage := decimal 10 1;
  bandwidth := float_of_Z 10;
  current_cost := float_of_Z 3000;
  company_name := EmptyString;
  contact_name := "Ann Lee";
  job_title := "CTO";
  email := EmptyString;
  phone := "555 0100";
  button := true
|}.

(** A price sheet with both rows the loader looks for and a bandwidth row
    besides: 100.00 per machine, 2.00 per GB, 5.00 per Mbps, written with
    their decimals, so that pandas reads the price column as floats. *)
Definition example_sheet : DataFrame := {|
  columns := ["Description"; "Quantity"; "Unit Monthly "];
  rows := [ [CStr VM_LABEL; CNum (float_of_Z 1); CNum (float_of_Z 100)];
            [CStr STORAGE_LABEL; CNum (float_of_Z 1); CNum (float_of_Z 2)];
            [CStr "Bandwidth"; CNum (float_of_Z 1); CNum (float_of_Z 5)] ]
|}.

(** The same sheet with the machine row gone. *)
Definition storage_only_sheet : DataFrame := {|
  columns := ["Description"; "Quantity"; "Unit Monthly "];
  rows := [ [CStr STORAGE_LABEL; CNum (float_of_Z 1); CNum (float_of_Z 2)];
            [CStr "Bandwidth"; CNum (float_of_Z 1); CNum (float_of_Z 5)] ]
|}.

(** A sheet whose prices are whole numbers throughout, which pandas reads
    as an [int64] column: 10000 per machine, 2 per GB. *)
Definition whole_number_sheet : DataFrame := {|
  columns := ["Description"; "Unit Monthly"];
  rows := [ [CStr VM_LABEL; CInt 10000];
            [CStr STORAGE_LABEL; CInt 2] ]
|}.

(** The same with a storage price of [2^53] per GB. *)
Definition huge_storage_sheet : DataFrame := {|
  columns := ["Description"; "Unit Monthly"];
  rows := [ [CStr VM_LABEL; CInt 10000];
            [CStr STORAGE_LABEL; CInt 9007199254740992] ]
|}.


(** The largest machine count the number input delivers, [2^53 - 1], with
    1.0 TB of storage. *)
Definition huge_count_form : form := {|
  vms := 9007199254740991;
  storage := float_of_Z 1;
  bandwidth := float_of_Z 0;
  current_cost := float_of_Z 3000;
  company_name := "Acme Ltd";
  contact_name := "Ann Lee";
  job_title := "CTO";
  email := "ann@acme.example";
  phone := "555 0100";
  button := true
|}.


Definition env_with (sheet : DataFrame) (l : logo_file) (t : smtp_outcome) : env :=
  {| assets_dir_exists := true; price_sheet := Some (Ok sheet);
     logo := l; smtp := t |}.

(** A file at the logo path that is not an image. *)
Definition unreadable_logo : logo_file :=
  LogoUnreadable (OtherException "cannot identify image file").

(** No assets directory at all, mail going through. *)
Definition bare_env : env :=
  {| assets_dir_exists := false; price_sheet := None;
     logo := LogoMissing; smtp := SmtpDelivers |}.

(* ================================================================== *)
(** * Vocabulary of the further properties *)

(** ** The text of the quote *)

(** The nine lines above the estimate. *)
Definition client_lines (data : quote_data.t) : list string :=
  [ "LekaLink Cloud Cost Quote";
    "Client Information:";
    "Company: " ++ quote_data.company_name data;
    "Contact: " ++ quote_data.contact_name data
      ++ " (" ++ quote_data.job_title data ++ ")";
    "Email: " ++ quote_data.email data;
    "Phone: " ++ quote_data.phone data;
    "Current Cloud Costs:";
    "Monthly Cost: R" ++ format_2f (quote_data.current_cost data);
    "LekaLink Estimated Costs:" ].

(** The three lines below it: savings, or an increase with the two numbers
    negated. *)
Definition savings_lines (data : quote_data.t) : list string :=
  if fleb (float_of_Z 0) (quote_data.monthly_savings data) then
    [ "Potential Savings:";
      "Monthly Savings: R" ++ format_2f (quote_data.monthly_savings data);
      "Percentage Savings: "
        ++ num_format_2f (quote_data.percentage_savings data) ++ "%" ]
  else
    [ "Potential Savings:";
      "Monthly Increase: R"
        ++ format_2f (- quote_data.monthly_savings data)%f64;
      "Percentage Increase: "
        ++ num_format_2f (num_neg (quote_data.percentage_savings data))
        ++ "%" ].

Definition quote_text (data : quote_data.t) (vm_amount : npnum) : list string :=
  (client_lines data ++ item_lines data vm_amount ++ savings_lines data)%list.

(** The number of [showPage] calls of a document. *)
Definition pages (doc : pdf) : nat :=
  List.length (filter (fun op => match op with showPage => true | _ => false end) doc).

(** Every line of text starts at the left margin, one inch in. *)
Definition left_aligned (doc : pdf) : Prop :=
  Forall (fun op => match op with drawString x _ _ => x = inch | _ => True end) doc.

(** ** Relations between the state before and after a statement *)

(** A statement whose final state is always related to its initial one. *)
Definition steps {S A} (R : S -> S -> Prop) (m : M S A) : Prop :=
  forall s, R s (snd (m s)).

(** A mail, if the event is one, goes from the fixed sender to the sales
    address. *)
Definition mail_goes_to_sales (ev : event) : Prop :=
  match ev with
  | sendmail sender recipient _ _ _ =>
      sender = SENDER_EMAIL /\ recipient = sales_email
  | _ => True
  end.

Definition adds_sales_mail_only (s s' : state) : Prop :=
  exists l, out s' = (out s ++ l)%list /\ Forall mail_goes_to_sales l.

(** What the button handler may do to the state: leave the three rates
    alone and add output, any mail in it going to the sales address. *)
Definition handler_step (s s' : state) : Prop :=
  VM_RATE s' = VM_RATE s
  /\ STORAGE_RATE_PER_TB s' = STORAGE_RATE_PER_TB s
  /\ BANDWIDTH_RATE_PER_MBPS s' = BANDWIDTH_RATE_PER_MBPS s
  /\ adds_sales_mail_only s s'.

Definition in_frame (R : state -> state -> Prop) (f f' : frame) : Prop :=
  R (globals f) (globals f').

(** ** What the loader reports *)

(** An error shown on the page or a line printed on the console. *)
Definition is_report (ev : event) : Prop :=
  match ev with
  | st_error _ | print _ => True
  | _ => False
  end.

Definition vm_warning : event :=
  print "Warning: Could not find 'Virtual Data Centre(Allocation Resource Pool)' or its price in price sheet. Using default VM rate.".

Definition storage_warning : event :=
  print "Warning: Could not find 'vStorage - NVME/SSD' or its price in price sheet. Using default Storage rate.".

(** The console warnings of a sheet the loader can read: one for each rate
    that falls back to its default. *)
Definition fallback_warnings (df : DataFrame) (d u : nat) : list event :=
  ((match listed_price df d u VM_LABEL with
    | Some _ => []
    | None => [vm_warning]
    end)
   ++ (match listed_price df d u STORAGE_LABEL with
       | Some _ => []
       | None => [storage_warning]
       end))%list.

(** The message of the [KeyError] handler for a column name. *)
Definition column_error (name : string) : event :=
  st_error ("Error reading column from price sheet: '" ++ name
            ++ "'. Ensure 'Description' and 'Unit Monthly' columns exist and are correctly formatted. Using default pricing rates.").

(** ** Blanks around a header name *)

Fixpoint all_space (s : string) : bool :=
  match s with
  | EmptyString => true
  | String c s' => is_space c && all_space s'
  end.

(** [name'] is [name] with blanks before and after. *)
Definition padded (name name' : string) : Prop :=
  exists p q, all_space p = true /\ all_space q = true /\ name' = p ++ name ++ q.

(** ** Zeros *)

Definition is_zero (x : float) : bool :=
  match x with S754_zero _ => true | _ => false end.

(** ** More inputs of examples *)

(** A sheet without a price column, and one without a description column. *)
Definition no_price_column_sheet : DataFrame := {|
  columns := ["Description"; "Quantity"];
  rows := [ [CStr VM_LABEL; CNum (float_of_Z 1)] ]
|}.

Definition no_description_sheet : DataFrame := {|
  columns := ["Item"; " Unit Monthly"];
  rows := [ [CStr VM_LABEL; CNum (float_of_Z 100)] ]
|}.

(** The machine label twice, the first time without a numeric price. *)
Definition repeated_label_sheet : DataFrame := {|
  columns := ["Description"; "Unit Monthly"];
  rows := [ [CStr "Setup fee"; CNum (float_of_Z 10)];
            [CStr VM_LABEL; CStr "on request"];
            [CStr VM_LABEL; CNum (float_of_Z 100)] ]
|}.

(** The example sheet with blanks around two of its header names. *)
Definition padded_header_sheet : DataFrame := {|
  columns := [" Description"; "Quantity"; "Unit Monthly  "];
  rows := rows example_sheet
|}.

(** A machine price of [inf]. *)
Definition infinite_price_sheet : DataFrame := {|
  columns := ["Description"; "Unit Monthly"];
  rows := [ [CStr VM_LABEL; CNum (S754_infinity false)];
            [CStr STORAGE_LABEL; CNum (float_of_Z 2)] ]
|}.

(** The dictionary of the worked example. *)
Definition example_data : quote_data.t :=
  make_quote_data initial_state example_form (decimal 267410 2)
    (monthly_savings (current_cost example_form) (decimal 267410 2))
    (PyFloat (monthly_savings (current_cost example_form) (decimal 267410 2)
              / current_cost example_form * float_of_Z 100)%f64).

(** A logo whose size can be read and whose pixels cannot. *)
Definition undrawable_logo : logo_file :=
  LogoImage 300 200 (Some (OtherException "image file is truncated")).

(** The form as the page first shows it, but for the contact fields and a
    current cost: no machine, no storage, no bandwidth. *)
Definition empty_usage_form : form := {|
  vms := 0;
  storage := float_of_Z 0;
  bandwidth := float_of_Z 0;
  current_cost := float_of_Z 3000;
  company_name := "Acme Ltd";
  contact_name := "Ann Lee";
  job_title := "CTO";
  email := "ann@acme.example";
  phone := "555 0100";
  button := true
|}.

(* ================================================================== *)
(** * Binary64 facts *)

Lemma shr_1_nonneg mrs : 0 <= shr_m mrs -> 0 <= shr_m (shr_1 mrs).
Proof.
  destruct mrs as [m r s]; simpl.
  destruct m as [|p|p]; simpl; try lia.
  destruct p; simpl; lia.
Qed.

Lemma iter_pos_shr_1_nonneg p :
  forall mrs, 0 <= shr_m mrs -> 0 <= shr_m (iter_pos shr_1 p mrs).
Proof.
  induction p; intros mrs H; simpl; auto using shr_1_nonneg.
Qed.

Lemma shr_fexp_nonneg m e l :
  0 <= m -> 0 <= shr_m (fst (shr_fexp prec emax m e l)).
Proof.
  intros H. unfold shr_fexp, shr.
  assert (H0 : 0 <= shr_m (shr_record_of_loc m l))
    by (destruct l as [|[]]; simpl; exact H).
  destruct (_ - e)%Z; simpl; auto using iter_pos_shr_1_nonneg.
Qed.

Lemma round_nearest_even_nonneg m l : 0 <= m -> 0 <= round_nearest_even m l.
Proof.
  intros H. unfold round_nearest_even. destruct l as [|[]]; try lia.
  destruct (Z.even m); lia.
Qed.

(** Rounding a non-negative mantissa never loses the sign it was given:
    the result is a zero, a finite number or an infinity of that sign. *)
Lemma fsign_binary_round_aux sx mx ex lx :
  0 <= mx -> fsign (binary_round_aux prec emax sx mx ex lx) = Some sx.
Proof.
  intros H. unfold binary_round_aux.
  pose proof (shr_fexp_nonneg mx ex lx H) as H1.
  destruct (shr_fexp prec emax mx ex lx) as [mrs' e']; simpl in H1.
  pose proof (shr_fexp_nonneg _ e' loc_Exact
                (round_nearest_even_nonneg _ (loc_of_shr_record mrs') H1)) as H2.
  destruct (shr_fexp prec emax _ e' loc_Exact) as [mrs'' e'']; simpl in H2.
  destruct (shr_m mrs'') as [|p|p]; simpl; try reflexivity.
  - destruct (Z.leb _ _); reflexivity.
  - lia.
Qed.

Lemma div_core_nonneg m1 e1 m2 e2 :
  0 <= fst (fst (SFdiv_core_binary prec emax (Zpos m1) e1 (Zpos m2) e2)).
Proof.
  unfold SFdiv_core_binary.
  set (s := (_ - _ - _)%Z).
  set (m' := match s with Z0 => _ | Zpos _ => _ | Zneg _ => _ end).
  assert (Hm : 0 <= m').
  { subst m'. destruct s; try lia. apply Z.shiftl_nonneg. lia. }
  pose proof (Z.div_eucl_eq m' (Zpos m2) ltac:(lia)) as Hq.
  pose proof (Z.mod_pos_bound m' (Zpos m2) ltac:(lia)) as Hr.
  unfold Z.modulo in Hr.
  destruct (Z.div_eucl m' (Zpos m2)) as [q r]. simpl. nia.
Qed.

Lemma fsign_fdiv_finite sx mx ex sy my ey :
  fsign (S754_finite sx mx ex / S754_finite sy my ey)%f64 = Some (xorb sx sy).
Proof.
  unfold fdiv, SFdiv.
  pose proof (div_core_nonneg mx ex my ey) as H.
  destruct (SFdiv_core_binary _ _ _ _ _ _) as [[mz ez] lz]. simpl in H.
  apply fsign_binary_round_aux. exact H.
Qed.

Lemma fsign_fmul_finite sx mx ex sy my ey :
  fsign (S754_finite sx mx ex * S754_finite sy my ey)%f64 = Some (xorb sx sy).
Proof.
  unfold fmul, SFmul. apply fsign_binary_round_aux. lia.
Qed.

Lemma fsign_cases x s :
  fsign x = Some s ->
  x = S754_zero s \/ x = S754_infinity s \/ exists m e, x = S754_finite s m e.
Proof.
  destruct x; simpl; intros H; inversion H; subst; eauto.
Qed.

Lemma hundred_finite : exists m e, float_of_Z 100 = S754_finite false m e.
Proof. eexists; eexists; vm_compute; reflexivity. Qed.

(** [x / c * 100] has the sign of [x] when [c] is finite and positive. *)
Lemma fsign_percentage x mc ec :
  fsign (x / S754_finite false mc ec * float_of_Z 100)%f64 = fsign x.
Proof.
  destruct hundred_finite as (mh & eh & Hh). rewrite Hh.
  destruct x as [s|s| |s m e].
  - simpl. now rewrite !xorb_false_r.
  - simpl. now rewrite !xorb_false_r.
  - reflexivity.
  - pose proof (fsign_fdiv_finite s m e false mc ec) as H.
    rewrite xorb_false_r in H.
    destruct (fsign_cases _ _ H) as [E|[E|(m'&e'&E)]]; rewrite E.
    + simpl. now rewrite xorb_false_r.
    + simpl. now rewrite xorb_false_r.
    + rewrite fsign_fmul_finite. now rewrite xorb_false_r.
Qed.

(** ** Converting an int *)

Lemma digits2_pos_size p : digits2_pos p = Pos.size p.
Proof. induction p; simpl; congruence. Qed.

Lemma digits2_pos_bound p : Zpos p < 2 ^ 53 -> Zpos (digits2_pos p) <= 53.
Proof.
  intros H. rewrite digits2_pos_size.
  pose proof (Pos.size_le p) as Hle.
  destruct (Z_le_gt_dec (Zpos (Pos.size p)) 53) as [|Hgt]; [assumption|exfalso].
  assert (H1 : 2 ^ 54 <= 2 ^ Zpos (Pos.size p))
    by (apply Z.pow_le_mono_r; lia).
  assert (H2 : Zpos (2 ^ Pos.size p)%positive = 2 ^ Zpos (Pos.size p))
    by (rewrite Pos2Z.inj_pow; reflexivity).
  assert (H3 : Zpos (2 ^ Pos.size p) <= Zpos p~0)
    by (apply Pos2Z.pos_le_pos; exact Hle).
  rewrite H2 in H3.
  change (2 ^ 54) with 18014398509481984 in H1.
  change (2 ^ 53) with 9007199254740992 in H. lia.
Qed.

Lemma digits2_pos_iter_xO k p :
  digits2_pos (Pos.iter xO p k) = (digits2_pos p + k)%positive.
Proof.
  revert p. induction k using Pos.peano_ind; intros p.
  - simpl. lia.
  - rewrite Pos.iter_succ. simpl. rewrite IHk. lia.
Qed.

Lemma iter_xO_value k p : Zpos (Pos.iter xO p k) = Zpos p * 2 ^ Zpos k.
Proof.
  revert p. induction k using Pos.peano_ind; intros p.
  - simpl. lia.
  - rewrite Pos.iter_succ.
    rewrite Pos2Z.inj_xO, IHk, Pos2Z.inj_succ, Z.pow_succ_r by lia. lia.
Qed.

Lemma fexp_53 e : -1074 <= e -> fexp prec emax (53 + e) - e = 0.
Proof. intros H. unfold fexp, emin, prec, emax. lia. Qed.

Lemma shr_fexp_exact m e :
  Zpos (digits2_pos m) = 53 -> -1074 <= e ->
  shr_fexp prec emax (Zpos m) e loc_Exact
  = ({| shr_m := Zpos m; shr_r := false; shr_s := false |}, e).
Proof.
  intros Hd He. unfold shr_fexp.
  change (Zdigits2 (Zpos m)) with (Zpos (digits2_pos m)).
  rewrite Hd, fexp_53 by assumption. reflexivity.
Qed.

(** A 53-bit mantissa with an exponent in range is a float as it stands. *)
Lemma binary_round_aux_exact s m e :
  Zpos (digits2_pos m) = 53 -> -1074 <= e <= 971 ->
  binary_round_aux prec emax s (Zpos m) e loc_Exact = S754_finite s m e.
Proof.
  intros Hd He. unfold binary_round_aux.
  rewrite shr_fexp_exact by (assumption || lia).
  cbn [shr_m loc_of_shr_record round_nearest_even].
  rewrite shr_fexp_exact by (assumption || lia).
  cbn [shr_m]. unfold emax, prec.
  destruct (Z.leb_spec e (1024 - 53)); [reflexivity|lia].
Qed.

(** An int below [2^53] converts to the float of exactly that value. *)
Lemma float_of_Z_exact n :
  0 < n < 2 ^ 53 ->
  exists m e, float_of_Z n = S754_finite false m e
              /\ -52 <= e <= 0 /\ Zpos m = n * 2 ^ (- e).
Proof.
  intros [Hpos Hlt]. destruct n as [|p|p]; try lia.
  pose proof (digits2_pos_bound p Hlt) as Hd.
  unfold float_of_Z, binary_normalize, binary_round.
  unfold shl_align, fexp, emin, prec, emax.
  replace (Z.max (Zpos (digits2_pos p) + 0 - 53) (3 - 1024 - 53))
    with (Zpos (digits2_pos p) - 53) by lia.
  rewrite Z.sub_0_r.
  destruct (Zpos (digits2_pos p) - 53) as [|q|q] eqn:E; try lia.
  - exists p, 0. split; [|split; [lia|simpl; lia]].
    apply binary_round_aux_exact; lia.
  - exists (Pos.iter xO p q), (Zpos (digits2_pos p) - 53). split; [|split].
    + rewrite E. apply binary_round_aux_exact.
      * rewrite digits2_pos_iter_xO. lia.
      * lia.
    + lia.
    + rewrite iter_xO_value. f_equal. f_equal. lia.
Qed.

(** The ints the number input can deliver never overflow a float. *)
Lemma float_of_int_in_range n :
  0 <= n < 2 ^ 53 -> float_of_int n = Ok (float_of_Z n).
Proof.
  intros [H0 H1]. unfold float_of_int.
  destruct (Z.eq_dec n 0) as [->|Hn]; [reflexivity|].
  destruct (float_of_Z_exact n ltac:(lia)) as (m & e & E & _). now rewrite E.
Qed.

Lemma int_mul_float_in_range n x :
  0 <= n < 2 ^ 53 -> int_mul_float n x = Ok (float_of_Z n * x)%f64.
Proof.
  intros H. unfold int_mul_float. now rewrite float_of_int_in_range.
Qed.

(** ** 64-bit products *)

(** Linear arithmetic with the powers of two of this file written out. *)
Ltac pow_lia :=
  change (2 ^ 53) with 9007199254740992 in *;
  change (2 ^ 54) with 18014398509481984 in *;
  change (2 ^ 63) with 9223372036854775808 in *;
  change (2 ^ 64) with 18446744073709551616 in *;
  lia.

Lemma wrap64_range z : - 2 ^ 63 <= wrap64 z < 2 ^ 63.
Proof.
  unfold wrap64.
  pose proof (Z.mod_pos_bound (z + 2 ^ 63) (2 ^ 64) ltac:(lia)). lia.
Qed.

(** A product that fits 64 bits is stored as it is, and only then. *)
Lemma wrap64_fits_iff z : wrap64 z = z <-> - 2 ^ 63 <= z < 2 ^ 63.
Proof.
  split.
  - intros H. rewrite <- H. apply wrap64_range.
  - intros H. unfold wrap64. rewrite Z.mod_small; lia.
Qed.

(** The stored number differs from the product by a multiple of [2^64]. *)
Lemma wrap64_congruent z : exists k, z = wrap64 z + k * 2 ^ 64.
Proof.
  exists ((z + 2 ^ 63) / 2 ^ 64). unfold wrap64.
  pose proof (Z.div_mod (z + 2 ^ 63) (2 ^ 64) ltac:(lia)). lia.
Qed.

(** Just above the range, the stored number is the product less [2^64]. *)
Lemma wrap64_above z : 2 ^ 63 <= z < 2 ^ 63 + 2 ^ 64 -> wrap64 z = z - 2 ^ 64.
Proof.
  intros H. unfold wrap64.
  replace (z + 2 ^ 63) with ((z - 2 ^ 63) + 1 * 2 ^ 64) by lia.
  rewrite Z.mod_add by lia. rewrite Z.mod_small; lia.
Qed.

Lemma in_int64_count n : 0 <= n < 2 ^ 53 -> in_int64 n = true.
Proof.
  intros H. unfold in_int64. apply andb_true_iff. split.
  - apply Z.leb_le. lia.
  - apply Z.ltb_lt. lia.
Qed.

Lemma int_mul_np_in_range n rate :
  0 <= n < 2 ^ 53 -> int_mul_np n rate = Ok (machines_amount n rate).
Proof.
  intros H. destruct rate as [r|x]; unfold int_mul_np, machines_amount.
  - now rewrite in_int64_count.
  - now rewrite int_mul_float_in_range.
Qed.

(* ================================================================== *)
(** * Reasoning about statements *)

(** The proofs below run the statements; the arithmetic stays folded. *)
Arguments fadd : simpl never.
Arguments fsub : simpl never.
Arguments fmul : simpl never.
Arguments fdiv : simpl never.
Arguments fneg : simpl never.
Arguments fleb : simpl never.
Arguments feqb : simpl never.
Arguments decimal : simpl never.
Arguments float_of_Z : simpl never.
Arguments format_2f : simpl never.
Arguments num_format_2f : simpl never.
Arguments String.append : simpl never.
Arguments int_mul_float : simpl never.
Arguments int_mul_np : simpl never.
Arguments np_format_2f : simpl never.
Arguments wrap64 : simpl never.
Arguments int_truediv : simpl never.
Arguments log : simpl never.

Lemma out_log s ev : out (log s ev) = (out s ++ [ev])%list.
Proof. reflexivity. Qed.

Lemma logs_app s l1 l2 : logs s (l1 ++ l2) = logs (logs s l1) l2.
Proof. unfold logs. apply fold_left_app. Qed.

Lemma out_logs s evs : out (logs s evs) = (out s ++ evs)%list.
Proof.
  revert s. induction evs as [|ev evs IH]; intros s; simpl.
  - now rewrite app_nil_r.
  - change (out (logs (log s ev) evs) = (out s ++ ev :: evs)%list).
    rewrite IH, out_log, <- app_assoc. reflexivity.
Qed.

Lemma emit_all_logs evs s : emit_all evs s = (Ok tt, logs s evs).
Proof.
  revert s. induction evs as [|ev evs IH]; intros s; [reflexivity|].
  simpl. unfold bind, emit. apply IH.
Qed.

(** ** Statements only ever add to the output *)

Section Grows.
Context {S : Type} (o : S -> list event).

Lemma grows_ret {A} (a : A) : grows o (ret a).
Proof. intros s. exists []. simpl. now rewrite app_nil_r. Qed.

Lemma grows_raise {A} ex : grows o (@raise S A ex).
Proof. intros s. exists []. simpl. now rewrite app_nil_r. Qed.

Lemma grows_eval {A} (r : result A) : grows o (eval r).
Proof. intros s. exists []. simpl. now rewrite app_nil_r. Qed.

Lemma grows_bind {A B} (m : M S A) (k : A -> M S B) :
  grows o m -> (forall a, grows o (k a)) -> grows o (bind m k).
Proof.
  intros Hm Hk s. unfold bind. destruct (Hm s) as [l Hl].
  destruct (m s) as [[a|ex] s']; simpl in Hl.
  - destruct (Hk a s') as [l' Hl']. exists (l ++ l')%list.
    now rewrite Hl', Hl, app_assoc.
  - exists l. exact Hl.
Qed.

Lemma grows_try_except {A} (m : M S A) (h : exn -> M S A) :
  grows o m -> (forall ex, grows o (h ex)) -> grows o (try_except m h).
Proof.
  intros Hm Hh s. unfold try_except. destruct (Hm s) as [l Hl].
  destruct (m s) as [[a|ex] s']; simpl in Hl.
  - exists l. exact Hl.
  - destruct (Hh ex s') as [l' Hl']. exists (l ++ l')%list.
    now rewrite Hl', Hl, app_assoc.
Qed.

Lemma grows_if {A} (b : bool) (m1 m2 : M S A) :
  grows o m1 -> grows o m2 -> grows o (if b then m1 else m2).
Proof. now destruct b. Qed.
End Grows.

Lemma grows_emit ev : grows out (emit ev).
Proof. intros s. exists [ev]. reflexivity. Qed.

Lemma grows_get_state : grows out get_state.
Proof. intros s. exists []. simpl. now rewrite app_nil_r. Qed.

Lemma grows_in_globals {A} (m : M state A) :
  grows out m -> grows frame_out (in_globals m).
Proof.
  intros H f. unfold in_globals, frame_out. destruct (H (globals f)) as [l Hl].
  destruct (m (globals f)) as [r s]. exists l. exact Hl.
Qed.

Lemma grows_canvas op : grows frame_out (canvas op).
Proof. intros f. exists []. unfold frame_out. simpl. now rewrite app_nil_r. Qed.

Lemma grows_set_y_position_logo y : grows frame_out (set_y_position_logo y).
Proof. intros f. exists []. unfold frame_out. simpl. now rewrite app_nil_r. Qed.

Lemma grows_set_y_position y : grows frame_out (set_y_position y).
Proof. intros f. exists []. unfold frame_out. simpl. now rewrite app_nil_r. Qed.

Lemma grows_local n g : grows frame_out (local n g).
Proof.
  intros f. exists []. unfold frame_out, local.
  destruct (g f); simpl; now rewrite app_nil_r.
Qed.

Create HintDb grows.
#[local] Hint Resolve grows_ret grows_raise grows_eval grows_emit grows_get_state
  grows_in_globals grows_canvas grows_set_y_position_logo grows_set_y_position
  grows_local : grows.

Ltac grows_tac :=
  repeat first
    [ solve [auto with grows]
    | apply grows_bind; [|intros]
    | apply grows_try_except; [|intros]
    | apply grows_if
    | progress cbv zeta
    | match goal with
      | |- grows _ (match ?x with _ => _ end) => destruct x
      | |- grows _ (let (_, _) := ?x in _) => destruct x
      end ].

Lemma grows_c_drawString t : grows frame_out (c_drawString t).
Proof. unfold c_drawString. grows_tac. Qed.

Lemma grows_move_down k : grows frame_out (move_down k).
Proof. unfold move_down. grows_tac. Qed.

Lemma grows_c_drawImage l x y w h : grows frame_out (c_drawImage l x y w h).
Proof. unfold c_drawImage. grows_tac. Qed.

#[local] Hint Resolve grows_c_drawString grows_move_down grows_c_drawImage : grows.

Lemma grows_logo_block e : grows frame_out (logo_block e).
Proof. unfold logo_block. simpl. grows_tac. Qed.

Lemma grows_text_block e data : grows frame_out (text_block e data).
Proof. unfold text_block. simpl. grows_tac. Qed.

Lemma grows_create_pdf e data : grows out (create_pdf e data).
Proof.
  intros s. unfold create_pdf.
  assert (H : grows frame_out (logo_block e;; text_block e data)).
  { apply grows_bind; [apply grows_logo_block | intros; apply grows_text_block]. }
  specialize (H {| c := []; y_position_logo := None; y_position := None;
                   globals := s |}).
  destruct H as [l Hl]. unfold frame_out in Hl. simpl in Hl.
  destruct ((logo_block e;; text_block e data) _) as [[a|ex] f];
    exists l; exact Hl.
Qed.

Lemma grows_send_email e r su b a f : grows out (send_email e r su b a f).
Proof. unfold send_email. grows_tac. Qed.

Lemma grows_emit_all evs : grows out (emit_all evs).
Proof. induction evs; simpl; grows_tac. Qed.

#[local] Hint Resolve grows_create_pdf grows_send_email grows_emit_all : grows.

Lemma grows_deliver e w cost savings percentage data :
  grows out (deliver e w cost savings percentage data).
Proof. unfold deliver. grows_tac. Qed.

(** What is on the page stays there while a statement runs. *)
Lemma grows_In {A} (m : M state A) s ev :
  grows out m -> In ev (out s) -> In ev (out (snd (m s))).
Proof.
  intros H Hin. destruct (H s) as [l Hl]. rewrite Hl.
  apply in_or_app. now left.
Qed.

(* ================================================================== *)
(** * The price sheet loader *)

Lemma getitem_column df name j :
  column_index name df = Some j ->
  getitem (strip_columns df) name = Ok (Column (column j df)).
Proof.
  unfold column_index, getitem. simpl.
  destruct (positions name (map strip (columns df)) 0) as [|i [|i' l]];
    try discriminate.
  intros H. inversion H. reflexivity.
Qed.

(** A name that is not there exactly once: the selection fails, or it is a
    frame. *)
Lemma getitem_no_column df name :
  column_index name df = None ->
  (exists key, getitem (strip_columns df) name = Raise (KeyError key))
  \/ (exists width, getitem (strip_columns df) name = Ok (Frame width)).
Proof.
  unfold column_index, getitem. simpl.
  destruct (positions name (map strip (columns df)) 0) as [|i [|i' l]];
    try discriminate; eauto.
Qed.

(** Selecting by column, as the loader does, finds the price the first
    matching row lists. *)
Lemma first_price_loc int64 label d u (rs : list (list cell)) :
  first_price (loc_unit_monthly label (map (fun r => nth d r CNaN) rs)
                 (map (numeric int64) (map (fun r => nth u r CNaN) rs)))
  = match find (fun r => cell_is label (nth d r CNaN)) rs with
    | Some r => let x := numeric int64 (nth u r CNaN) in
                if np_isna x then None else Some x
    | None => None
    end.
Proof.
  unfold loc_unit_monthly.
  induction rs as [|r rs IH]; simpl; [reflexivity|].
  destruct (cell_is label (nth d r CNaN)); simpl; [reflexivity|exact IH].
Qed.

Lemma first_price_listed df d u label :
  first_price (loc_unit_monthly label (column d df) (to_numeric (column u df)))
  = listed_price df d u label.
Proof. unfold to_numeric, listed_price, column at 1 3. apply first_price_loc. Qed.

Lemma load_handler_returns ex s :
  exists ev, load_handler ex s = (Ok tt, log s ev).
Proof. destruct ex; simpl; eexists; reflexivity. Qed.

Lemma loaded_sheet_inv e df d u :
  loaded_sheet e = Some (df, d, u) ->
  assets_dir_exists e = true /\ price_sheet e = Some (Ok df)
  /\ column_index "Description" df = Some d
  /\ column_index "Unit Monthly" df = Some u.
Proof.
  unfold loaded_sheet.
  destruct (assets_dir_exists e); [|discriminate].
  destruct (price_sheet e) as [[df'|]|]; try discriminate.
  destruct (column_index "Description" df') as [d'|] eqn:Ed; [|discriminate].
  destruct (column_index "Unit Monthly" df') as [u'|] eqn:Eu; [|discriminate].
  intros H. inversion H; subst. auto.
Qed.

(** The outcome of the loader on a sheet it can read. *)
Lemma load_prices_loaded e s df d u :
  loaded_sheet e = Some (df, d, u) ->
  let s' := snd (load_prices e s) in
  fst (load_prices e s) = Ok tt
  /\ VM_RATE s' = match listed_price df d u VM_LABEL with
                  | Some x => x
                  | None => NpFloat DEFAULT_VM_RATE
                  end
  /\ STORAGE_RATE_PER_TB s' = match listed_price df d u STORAGE_LABEL with
                              | Some x => np_mul_1024 x
                              | None => NpFloat DEFAULT_STORAGE_RATE_PER_TB
                              end
  /\ BANDWIDTH_RATE_PER_MBPS s' = BANDWIDTH_RATE_PER_MBPS s.
Proof.
  intros H. destruct (loaded_sheet_inv _ _ _ _ H) as (Ha & Hp & Hd & Hu).
  unfold load_prices, load_block, try_except, bind, eval.
  rewrite Ha, Hp. cbn [negb ret].
  rewrite (getitem_column _ _ _ Hu), (getitem_column _ _ _ Hd).
  cbn [pd_to_numeric loc_description].
  rewrite !first_price_listed.
  destruct (listed_price df d u VM_LABEL), (listed_price df d u STORAGE_LABEL);
    cbn; auto.
Qed.

(** The outcome of the loader when the sheet cannot be read: the handler
    absorbs the exception and the three globals are as they were. *)
Lemma load_prices_not_loaded e s :
  loaded_sheet e = None ->
  let s' := snd (load_prices e s) in
  fst (load_prices e s) = Ok tt
  /\ VM_RATE s' = VM_RATE s
  /\ STORAGE_RATE_PER_TB s' = STORAGE_RATE_PER_TB s
  /\ BANDWIDTH_RATE_PER_MBPS s' = BANDWIDTH_RATE_PER_MBPS s.
Proof.
  unfold loaded_sheet, load_prices, load_block, try_except, bind, eval.
  destruct (assets_dir_exists e); cbn [negb ret emit raise load_handler];
    [|intros _; cbn; auto].
  destruct (price_sheet e) as [[df|ex]|]; cbn [emit raise];
    [ | intros _; destruct (load_handler_returns ex s) as [ev ->]; cbn; auto
      | intros _; cbn; auto ].
  destruct (column_index "Unit Monthly" df) as [u|] eqn:Eu.
  - rewrite (getitem_column _ _ _ Eu). cbn [pd_to_numeric].
    destruct (column_index "Description" df) as [d|] eqn:Ed; [discriminate|].
    intros _. destruct (getitem_no_column _ _ Ed) as [[key ->]|[width ->]];
      cbn; auto.
  - intros _. destruct (getitem_no_column _ _ Eu) as [[key ->]|[width ->]];
      cbn; auto.
Qed.

Lemma load_prices_returns e s : fst (load_prices e s) = Ok tt.
Proof.
  destruct (loaded_sheet e) as [[[df d] u]|] eqn:E.
  - apply (load_prices_loaded e s df d u E).
  - apply (load_prices_not_loaded e s E).
Qed.

(** A run: the loader, the page, and the handler when the button was
    pressed. *)
Lemma script_runs e w s :
  script e w s
  = (if button w then on_click e w else ret tt)
      (logs (snd (load_prices e s)) page_events).
Proof.
  unfold script, bind.
  pose proof (load_prices_returns e s) as Hload.
  destruct (load_prices e s) as [r s']. cbn [fst snd] in *. subst r.
  unfold inject_css, emit at 1. rewrite emit_all_logs. reflexivity.
Qed.

Lemma load_prices_bandwidth e s :
  BANDWIDTH_RATE_PER_MBPS (snd (load_prices e s)) = BANDWIDTH_RATE_PER_MBPS s.
Proof.
  destruct (loaded_sheet e) as [[[df d] u]|] eqn:E.
  - apply (load_prices_loaded e s df d u E).
  - apply (load_prices_not_loaded e s E).
Qed.

(** C5.  The loader falls back rate by rate and never raises.  Whatever the
    environment holds, [load_prices] returns normally.  On a sheet it can
    read, the machine rate is the price listed for the machine label, or its
    default when no row has that label or the first such row has no numeric
    price; the storage rate is decided in the same way by the storage row
    alone.  So a missing or non-numeric row makes only its own rate fall
    back. *)
Theorem rate_fallback_is_per_rate :
  (forall e s, fst (load_prices e s) = Ok tt)
  /\ (forall e s df d u,
        loaded_sheet e = Some (df, d, u) ->
        let s' := snd (load_prices e s) in
        VM_RATE s' = match listed_price df d u VM_LABEL with
                     | Some x => x
                     | None => NpFloat DEFAULT_VM_RATE
                     end
        /\ STORAGE_RATE_PER_TB s'
           = match listed_price df d u STORAGE_LABEL with
             | Some y => np_mul_1024 y
             | None => NpFloat DEFAULT_STORAGE_RATE_PER_TB
             end).
Proof.
  split.
  - apply load_prices_returns.
  - intros e s df d u H s'.
    destruct (load_prices_loaded e s df d u H) as (_ & Hvm & Hst & _).
    split; assumption.
Qed.

(** On the sheet without a machine row the machine rate is the default and
    the storage rate still comes from the sheet. *)
Lemma rate_fallback_is_per_rate_witness :
  let e := env_with storage_only_sheet LogoMissing SmtpDelivers in
  loaded_sheet e = Some (storage_only_sheet, 0%nat, 2%nat)
  /\ VM_RATE (snd (load_prices e initial_state)) = NpFloat DEFAULT_VM_RATE
  /\ STORAGE_RATE_PER_TB (snd (load_prices e initial_state))
     = NpFloat (float_of_Z 2 * float_of_Z 1024)%f64.
Proof.
  split; [reflexivity|].
  exact (proj2 rate_fallback_is_per_rate
           (env_with storage_only_sheet LogoMissing SmtpDelivers) initial_state
           storage_only_sheet 0%nat 2%nat eq_refl).
Defined.

(** C6, as the code has it.  The bandwidth rate is never read from the
    sheet: after loading it is the hard-coded default, whatever the
    environment.  The machine and storage rates are resolved from the sheet
    when it loads, each from its own row (with its default when that row is
    missing or not numeric), and are the defaults when loading fails. *)
Theorem rates_resolved_from_source :
  forall e,
    let s' := snd (load_prices e initial_state) in
    BANDWIDTH_RATE_PER_MBPS s' = NpFloat DEFAULT_BANDWIDTH_RATE_PER_MBPS
    /\ match loaded_sheet e with
       | Some (df, d, u) =>
           VM_RATE s' = match listed_price df d u VM_LABEL with
                        | Some x => x
                        | None => NpFloat DEFAULT_VM_RATE
                        end
           /\ STORAGE_RATE_PER_TB s'
              = match listed_price df d u STORAGE_LABEL with
                | Some y => np_mul_1024 y
                | None => NpFloat DEFAULT_STORAGE_RATE_PER_TB
                end
       | None =>
           VM_RATE s' = NpFloat DEFAULT_VM_RATE
           /\ STORAGE_RATE_PER_TB s' = NpFloat DEFAULT_STORAGE_RATE_PER_TB
       end.
Proof.
  intros e s'. split.
  - apply load_prices_bandwidth.
  - destruct (loaded_sheet e) as [[[df d] u]|] eqn:E.
    + destruct (load_prices_loaded e initial_state df d u E) as (_ & Hvm & Hst & _).
      split; assumption.
    + destruct (load_prices_not_loaded e initial_state E) as (_ & Hvm & Hst & _).
      split; assumption.
Qed.

(** C6 as stated fails: the example sheet loads without a warning, its
    machine and storage rows give the two rates, it lists 5 per Mbps of
    bandwidth, and the bandwidth rate is still the default 7.50. *)
Lemma rates_resolved_from_source_counterexample :
  let e := env_with example_sheet LogoMissing SmtpDelivers in
  let s' := snd (load_prices e initial_state) in
  loaded_sheet e = Some (example_sheet, 0%nat, 2%nat)
  /\ out s' = []
  /\ VM_RATE s' = NpFloat (float_of_Z 100)
  /\ STORAGE_RATE_PER_TB s' = NpFloat (float_of_Z 2048)
  /\ listed_price example_sheet 0 2 "Bandwidth" = Some (NpFloat (float_of_Z 5))
  /\ BANDWIDTH_RATE_PER_MBPS s' = NpFloat DEFAULT_BANDWIDTH_RATE_PER_MBPS
  /\ feqb DEFAULT_BANDWIDTH_RATE_PER_MBPS (float_of_Z 5) = false.
Proof. vm_compute. repeat split; reflexivity. Qed.

(** C7, where the code breaks it.  On a sheet the loader can read, a
    machine price is stored as it is and a storage price is stored times
    1024 in the arithmetic of its column: a float price [x] as the float
    product [x * 1024], a whole-number price [n] of an [int64] column as the
    64-bit product, which is [n * 1024] only for [n] from [-2^53] up to,
    not including, [2^53]; for a price from [2^53] up to [2^54] per GB the
    stored rate is [2^64] less than the converted price, and negative. *)
Theorem storage_rate_conversion_wraps_at_64_bits :
  forall e s df d u,
    loaded_sheet e = Some (df, d, u) ->
    let s' := snd (load_prices e s) in
    (forall y, listed_price df d u VM_LABEL = Some y -> VM_RATE s' = y)
    /\ (forall x, listed_price df d u STORAGE_LABEL = Some (NpFloat x) ->
                  STORAGE_RATE_PER_TB s' = NpFloat (x * float_of_Z 1024)%f64)
    /\ (forall n, listed_price df d u STORAGE_LABEL = Some (NpInt64 n) ->
                  exists stored,
                    STORAGE_RATE_PER_TB s' = NpInt64 stored
                    /\ (stored = n * 1024 <-> - 2 ^ 53 <= n < 2 ^ 53)
                    /\ (2 ^ 53 <= n < 2 ^ 54 ->
                        stored = n * 1024 - 2 ^ 64 /\ stored < 0)).
Proof.
  intros e s df d u H s'.
  destruct (load_prices_loaded e s df d u H) as (_ & Hvm & Hst & _).
  fold s' in Hvm, Hst. split; [|split].
  - intros y Hy. now rewrite Hy in Hvm.
  - intros x Hx. now rewrite Hx in Hst.
  - intros n Hn. rewrite Hn in Hst. cbn [np_mul_1024] in Hst.
    exists (wrap64 (n * 1024)). split; [exact Hst|]. split.
    + rewrite wrap64_fits_iff. split; intros Hr; pow_lia.
    + intros Hr. rewrite wrap64_above by pow_lia. pow_lia.
Qed.

(** A whole-number column with [2^53] per GB: the stored rate per TB is
    [-2^63], where the converted price is [2^63]. *)
Lemma storage_rate_conversion_wraps_at_64_bits_witness :
  let e := env_with huge_storage_sheet LogoMissing SmtpDelivers in
  loaded_sheet e = Some (huge_storage_sheet, 0%nat, 1%nat)
  /\ listed_price huge_storage_sheet 0 1 STORAGE_LABEL
     = Some (NpInt64 9007199254740992)
  /\ exists stored,
       STORAGE_RATE_PER_TB (snd (load_prices e initial_state)) = NpInt64 stored
       /\ stored = - 9223372036854775808
       /\ 9007199254740992 * 1024 = 9223372036854775808.
Proof.
  split; [reflexivity|]. split; [reflexivity|].
  destruct (proj2 (proj2 (storage_rate_conversion_wraps_at_64_bits
                            (env_with huge_storage_sheet LogoMissing SmtpDelivers)
                            initial_state huge_storage_sheet 0%nat 1%nat eq_refl))
              9007199254740992 eq_refl)
    as (stored & Hst & _ & Hover).
  exists stored. split; [exact Hst|]. split; [|reflexivity].
  assert (Hn : 2 ^ 53 <= 9007199254740992 < 2 ^ 54)
    by (vm_compute; split; [discriminate|reflexivity]).
  rewrite (proj1 (Hover Hn)). reflexivity.
Defined.

(* ================================================================== *)
(** * The validation gate *)

Lemma validate_inputs_complete w s :
  contact_complete w = true ->
  validate_inputs (company_name w) (contact_name w) (job_title w)
                  (email w) (phone w) s = (Ok true, s).
Proof.
  unfold contact_complete, validate_inputs.
  destruct (company_name w), (contact_name w), (job_title w), (email w),
    (phone w); simpl; try discriminate; reflexivity.
Qed.

Lemma validate_inputs_incomplete w s :
  contact_complete w = false ->
  exists msg,
    first_missing w = Some msg
    /\ validate_inputs (company_name w) (contact_name w) (job_title w)
                       (email w) (phone w) s
       = (Ok false, log s (st_error msg)).
Proof.
  unfold contact_complete, validate_inputs, first_missing.
  destruct (company_name w); [intros _; eexists; split; reflexivity|].
  destruct (contact_name w); [intros _; eexists; split; reflexivity|].
  destruct (job_title w); [intros _; eexists; split; reflexivity|].
  destruct (email w); [intros _; eexists; split; reflexivity|].
  destruct (phone w); [intros _; eexists; split; reflexivity|].
  simpl. discriminate.
Qed.

Lemma on_click_complete e w s :
  contact_complete w = true -> on_click e w s = quote_block e w s.
Proof.
  intros H. unfold on_click, bind. now rewrite validate_inputs_complete.
Qed.

(** C4, as the code has it.  Validation succeeds exactly when the five
    contact fields are all non-empty.  When one or more is empty it fails
    with a single report, the one of the first empty field in the order
    company name, contact name, job title, email, phone; the handler then
    does nothing else: no cost is computed, no document rendered, no mail
    sent. *)
Theorem validation_reports_first_missing_field :
  (forall w s,
      fst (validate_inputs (company_name w) (contact_name w) (job_title w)
                           (email w) (phone w) s)
      = Ok (contact_complete w))
  /\ (forall e w s,
        contact_complete w = false ->
        exists msg,
          first_missing w = Some msg
          /\ validate_inputs (company_name w) (contact_name w) (job_title w)
                             (email w) (phone w) s
             = (Ok false, log s (st_error msg))
          /\ on_click e w s = (Ok tt, log s (st_error msg))).
Proof.
  split.
  - intros w s. destruct (contact_complete w) eqn:E.
    + now rewrite validate_inputs_complete.
    + destruct (validate_inputs_incomplete w s E) as (msg & _ & ->). reflexivity.
  - intros e w s E.
    destruct (validate_inputs_incomplete w s E) as (msg & Hm & Hv).
    exists msg. repeat split; try assumption.
    unfold on_click, bind. now rewrite Hv.
Qed.

(** With the company name and the email both empty, the company name is
    the one reported. *)
Lemma validation_reports_first_missing_field_witness :
  contact_complete two_missing_form = false
  /\ exists msg,
       first_missing two_missing_form = Some msg
       /\ on_click bare_env two_missing_form initial_state
          = (Ok tt, log initial_state (st_error msg)).
Proof.
  split; [reflexivity|].
  destruct (proj2 validation_reports_first_missing_field
              bare_env two_missing_form initial_state eq_refl)
    as (msg & Hm & _ & Hc).
  exists msg. split; assumption.
Defined.

(** C4 as stated fails: with the company name and the email both empty the
    handler reports the company name only; the empty email gets no report
    of its own. *)
Lemma validation_reports_first_missing_field_counterexample :
  is_empty (company_name two_missing_form) = true
  /\ is_empty (email two_missing_form) = true
  /\ out (snd (on_click bare_env two_missing_form initial_state))
     = [st_error "Company Name is required."]
  /\ ~ In (st_error "Email is required.")
          (out (snd (on_click bare_env two_missing_form initial_state))).
Proof.
  repeat split; try reflexivity.
  intros [H|[]]. discriminate H.
Qed.

(* ================================================================== *)
(** * The calculation *)

Lemma float_zero : float_of_Z 0 = S754_zero false.
Proof. reflexivity. Qed.

Lemma feqb_zero_inv c : feqb c (float_of_Z 0) = true -> exists s, c = S754_zero s.
Proof.
  rewrite float_zero. unfold feqb, SFeqb.
  destruct c as [s|[]| |[] m e]; simpl; try discriminate; eauto.
Qed.

Lemma feqb_refl x : is_nan x = false -> feqb x x = true.
Proof.
  unfold feqb, SFeqb.
  destruct x as [s|[]| |[] m e]; simpl; try discriminate; try reflexivity;
    intros _; rewrite Z.compare_refl, Pos.compare_cont_refl; reflexivity.
Qed.

(** The percentage is always defined: the guard keeps the division away
    from a zero divisor. *)
Lemma percentage_savings_value savings c :
  percentage_savings savings c
  = Ok (if feqb c (float_of_Z 0) then PyInt 0
        else PyFloat (savings / c * float_of_Z 100)%f64).
Proof.
  unfold percentage_savings, float_truediv. rewrite <- float_zero.
  destruct (feqb c (float_of_Z 0)); reflexivity.
Qed.

Lemma show_results_logs cost savings percentage s :
  show_results cost savings percentage s
  = (Ok tt, logs s (results_events cost savings percentage)).
Proof.
  unfold show_results, results_events, bind, emit.
  rewrite emit_all_logs. rewrite !logs_app. reflexivity.
Qed.

(** Once the cost is computed the handler shows the results card and goes
    on to deliver the quote. *)
Lemma quote_block_run e w s cost :
  lekalink_cost s w = Ok cost ->
  let savings := monthly_savings (current_cost w) cost in
  let percentage :=
    if feqb (current_cost w) (float_of_Z 0) then PyInt 0
    else PyFloat (savings / current_cost w * float_of_Z 100)%f64 in
  quote_block e w s
  = deliver e w cost savings percentage
            (make_quote_data s w cost savings percentage)
            (logs s (results_events cost savings percentage)).
Proof.
  intros H savings percentage.
  unfold quote_block, bind, get_state, eval.
  rewrite H, percentage_savings_value, show_results_logs. reflexivity.
Qed.

(** What is shown changes no rate, and so no cost. *)
Lemma rates_logs s evs :
  VM_RATE (logs s evs) = VM_RATE s
  /\ STORAGE_RATE_PER_TB (logs s evs) = STORAGE_RATE_PER_TB s
  /\ BANDWIDTH_RATE_PER_MBPS (logs s evs) = BANDWIDTH_RATE_PER_MBPS s.
Proof.
  revert s. induction evs as [|ev evs IH]; intros s; [repeat split|].
  change (logs s (ev :: evs)) with (logs (log s ev) evs).
  destruct (IH (log s ev)) as (-> & -> & ->). repeat split.
Qed.

Lemma lekalink_cost_logs s evs w :
  lekalink_cost (logs s evs) w = lekalink_cost s w.
Proof.
  unfold lekalink_cost. destruct (rates_logs s evs) as (-> & -> & ->). reflexivity.
Qed.

Lemma lekalink_cost_in_range s w :
  0 <= vms w < 2 ^ 53 ->
  lekalink_cost s w
  = Ok (np_float (machines_amount (vms w) (VM_RATE s))
        + storage w * np_float (STORAGE_RATE_PER_TB s)
        + bandwidth w * np_float (BANDWIDTH_RATE_PER_MBPS s))%f64.
Proof.
  intros H. unfold lekalink_cost. now rewrite int_mul_np_in_range.
Qed.

(** The literals of the defaults, bit for bit: [864.35] is
    [0x1.b02cccccccccdp+9], [870.40] is [0x1.b333333333333p+9] and [7.50]
    is exact. *)
Lemma default_rate_literals :
  DEFAULT_VM_RATE = S754_finite false 0x1b02cccccccccd (-43)
  /\ DEFAULT_STORAGE_RATE_PER_TB = S754_finite false 0x1b333333333333 (-43)
  /\ DEFAULT_BANDWIDTH_RATE_PER_MBPS = S754_finite false 0x1e000000000000 (-50).
Proof. repeat split. Qed.

(** C1, where the code breaks it.  For every state of the rates and every
    form whose contact fields are filled in and whose machine count is one
    the number input can deliver, the handler computes an estimated cost,
    takes the monthly savings to be the current cost minus it, and puts
    both on the page.  With a float machine rate the estimated cost is
    [vms * VM_RATE + storage * STORAGE_RATE_PER_TB
     + bandwidth * BANDWIDTH_RATE_PER_MBPS] in binary64.  With a machine
    rate read from a column of whole numbers, an [int64], the first term is
    the 64-bit product instead: the number within 64 bits that differs
    from [vms * VM_RATE] by a multiple of [2^64], which is [vms * VM_RATE]
    only when that fits 64 bits.  With the default rates, 2 machines, 1.0 TB, 10 Mbps
    and a current cost of 3000, the formula gives 2674.10 and 325.90 in the
    exact arithmetic of the specification; in the code the estimated cost is
    the float [2674.10] and the monthly savings are the float
    [3000 - 2674.10], binary64 numbers within 1e-12 of those two amounts,
    which the page shows as [R2674.10] and [R325.90]. *)
Theorem estimated_cost_wraps_at_64_bits :
  (forall e w s,
      contact_complete w = true ->
      0 <= vms w < 2 ^ 53 ->
      exists cost,
        lekalink_cost s w = Ok cost
        /\ monthly_savings (current_cost w) cost = (current_cost w - cost)%f64
        /\ (exists percentage,
              percentage_savings (current_cost w - cost)%f64 (current_cost w)
              = Ok percentage
              /\ incl (results_events cost (current_cost w - cost)%f64 percentage)
                      (out (snd (on_click e w s))))
        /\ (forall x,
              VM_RATE s = NpFloat x ->
              cost = (float_of_Z (vms w) * x
                      + storage w * np_float (STORAGE_RATE_PER_TB s)
                      + bandwidth w * np_float (BANDWIDTH_RATE_PER_MBPS s))%f64)
        /\ (forall r,
              VM_RATE s = NpInt64 r ->
              exists product,
                cost = (float_of_Z product
                        + storage w * np_float (STORAGE_RATE_PER_TB s)
                        + bandwidth w * np_float (BANDWIDTH_RATE_PER_MBPS s))%f64
                /\ - 2 ^ 63 <= product < 2 ^ 63
                /\ (exists k, vms w * r = product + k * 2 ^ 64)
                /\ (product = vms w * r <-> - 2 ^ 63 <= vms w * r < 2 ^ 63)))
  /\ (let cost := decimal 267410 2 in
      let savings := monthly_savings (current_cost example_form) cost in
      (spec_estimated_cost 2 1 10 (86435 # 100) (87040 # 100) (750 # 100)
       == 267410 # 100)%Q
      /\ (spec_monthly_savings 3000 (267410 # 100) == 32590 # 100)%Q
      /\ lekalink_cost initial_state example_form = Ok cost
      /\ (exists v, float_value cost = Some v
                    /\ (Qabs (v - (267410 # 100)) < 1 # 10 ^ 12)%Q)
      /\ (exists v, float_value savings = Some v
                    /\ (Qabs (v - (32590 # 100)) < 1 # 10 ^ 12)%Q)
      /\ format_2f cost = "2674.10"
      /\ format_2f savings = "325.90"
      /\ In (st_write "**LekaLink Estimated Monthly Cost:** R2674.10")
            (out (snd (run bare_env example_form)))
      /\ In (st_markdown ("<p class=" ++ dquote ++ "savings-positive" ++ dquote
                          ++ ">**Monthly Savings:** R325.90</p>"))
            (out (snd (run bare_env example_form)))).
Proof.
  split.
  - intros e w s Hc Hv.
    pose proof (lekalink_cost_in_range s w Hv) as Hcost.
    eexists. split; [exact Hcost|]. split; [reflexivity|]. split; [|split].
    + eexists. split; [apply percentage_savings_value|].
      rewrite (on_click_complete e w s Hc), (quote_block_run e w s _ Hcost).
      intros ev Hev.
      apply grows_In; [apply grows_deliver|].
      rewrite out_logs. apply in_or_app. now right.
    + intros x Hx. rewrite Hx. reflexivity.
    + intros r Hr. rewrite Hr. exists (wrap64 (vms w * r)).
      split; [reflexivity|]. split; [apply wrap64_range|].
      split; [apply wrap64_congruent|apply wrap64_fits_iff].
  - cbv zeta. split; [vm_compute; reflexivity|].
    split; [vm_compute; reflexivity|].
    split; [vm_compute; reflexivity|].
    split; [eexists; split; vm_compute; reflexivity|].
    split; [eexists; split; vm_compute; reflexivity|].
    vm_compute. repeat split; auto 40.
Qed.

(** The savings of the worked example are not the float the literal
    [325.90] denotes: the difference of two binary64 numbers lies two units
    in the last place above it, [325.9000000000001] as Python prints it. *)
Remark example_savings_float :
  monthly_savings (float_of_Z 3000) (decimal 267410 2)
  = S754_finite false 5733293431875176 (-44)
  /\ decimal 32590 2 = S754_finite false 5733293431875174 (-44).
Proof. split; reflexivity. Qed.

(** A sheet of whole numbers with 10000 per machine and 2 per GB, and
    [2^53 - 1] machines with 1.0 TB: the machine rate is an [int64], the
    product 90071992547409910000 does not fit 64 bits, and the page shows an
    estimated cost of [R-2161727821137846016.00]. *)
Lemma estimated_cost_wraps_at_64_bits_witness :
  let e := env_with whole_number_sheet LogoMissing SmtpDelivers in
  let s := snd (load_prices e initial_state) in
  contact_complete huge_count_form = true
  /\ 0 <= vms huge_count_form < 2 ^ 53
  /\ VM_RATE s = NpInt64 10000
  /\ 2 ^ 63 <= vms huge_count_form * 10000
  /\ (exists cost,
        lekalink_cost s huge_count_form = Ok cost
        /\ In (st_write ("**LekaLink Estimated Monthly Cost:** R" ++ format_2f cost))
              (out (snd (on_click e huge_count_form s))))
  /\ lekalink_cost s huge_count_form
     = Ok (S754_finite true 8444249301319711 8)
  /\ format_2f (S754_finite true 8444249301319711 8) = "-2161727821137846016.00"
  /\ In (st_write "**LekaLink Estimated Monthly Cost:** R-2161727821137846016.00")
        (out (snd (run e huge_count_form))).
Proof.
  assert (Hv : 0 <= vms huge_count_form < 2 ^ 53)
    by (vm_compute; split; [discriminate|reflexivity]).
  split; [reflexivity|]. split; [exact Hv|]. split; [reflexivity|].
  split; [vm_compute; discriminate|].
  split.
  - destruct (proj1 estimated_cost_wraps_at_64_bits
                (env_with whole_number_sheet LogoMissing SmtpDelivers)
                huge_count_form
                (snd (load_prices
                        (env_with whole_number_sheet LogoMissing SmtpDelivers)
                        initial_state))
                eq_refl Hv)
      as (cost & Hcost & _ & (percentage & _ & Hpage) & _).
    exists cost. split; [exact Hcost|].
    apply Hpage. unfold results_events. right. right. left. reflexivity.
  - vm_compute. repeat split; auto 40.
Defined.

Lemma fsub_from_zero s cost :
  same_number (S754_zero s - cost)%f64 (- cost)%f64.
Proof.
  unfold same_number.
  destruct cost as [s'|s'| |s' m e].
  - left. destruct s, s'; reflexivity.
  - left. destruct s'; reflexivity.
  - right. split; reflexivity.
  - left. change (S754_zero s - S754_finite s' m e)%f64
      with (S754_finite (negb s') m e).
    change (- S754_finite s' m e)%f64 with (S754_finite (negb s') m e).
    now apply feqb_refl.
Qed.

(** C2.  With a current cost of zero the percentage is the int [0] and no
    [ZeroDivisionError] is raised, whatever the estimated cost, and the
    monthly savings are minus the estimated cost (as numbers; both are NaN
    when the cost is).  With a current cost other than zero the percentage
    is [monthly_savings / current_cost * 100]. *)
Theorem percentage_savings_guards_zero_cost :
  (forall savings c,
      feqb c (float_of_Z 0) = true ->
      percentage_savings savings c = Ok (PyInt 0))
  /\ (forall cost c,
        feqb c (float_of_Z 0) = true ->
        same_number (monthly_savings c cost) (- cost)%f64)
  /\ (forall savings c,
        feqb c (float_of_Z 0) = false ->
        percentage_savings savings c
        = Ok (PyFloat (savings / c * float_of_Z 100)%f64)).
Proof.
  repeat split.
  - intros savings c H. now rewrite percentage_savings_value, H.
  - intros cost c H. destruct (feqb_zero_inv c H) as [s ->].
    apply fsub_from_zero.
  - intros savings c H. now rewrite percentage_savings_value, H.
Qed.

(** One machine at a current cost of 0.0: the percentage is [0] and the
    savings are minus the default machine rate; at a current cost of 3000
    the percentage is the quotient times 100. *)
Lemma percentage_savings_guards_zero_cost_witness :
  percentage_savings (monthly_savings (float_of_Z 0) DEFAULT_VM_RATE)
                     (float_of_Z 0) = Ok (PyInt 0)
  /\ same_number (monthly_savings (float_of_Z 0) DEFAULT_VM_RATE)
                 (- DEFAULT_VM_RATE)%f64
  /\ percentage_savings (decimal 32590 2) (float_of_Z 3000)
     = Ok (PyFloat (decimal 32590 2 / float_of_Z 3000 * float_of_Z 100)%f64).
Proof.
  destruct percentage_savings_guards_zero_cost as (Hzero & Hsavings & Hother).
  split; [|split].
  - apply Hzero. reflexivity.
  - apply Hsavings. reflexivity.
  - apply Hother. reflexivity.
Defined.

Lemma positive_finite_inv c :
  is_finite c = true -> fltb (float_of_Z 0) c = true ->
  exists m e, c = S754_finite false m e.
Proof.
  rewrite float_zero. unfold fltb, SFltb.
  destruct c as [s|s| |[] m e]; simpl; try discriminate; eauto.
Qed.

(** C3, as the code has it.  The monthly savings have the sign of
    [current_cost - lekalink_cost].  For a positive current cost the
    percentage is a float with the sign of the monthly savings, negative
    for an increase and non-negative for savings.  For a current cost of
    zero the percentage is the int [0] whatever the sign of the monthly
    savings. *)
Theorem percentage_sign_follows_savings :
  (forall c cost, fsign (monthly_savings c cost) = fsign (c - cost)%f64)
  /\ (forall c cost,
        is_finite c = true ->
        fltb (float_of_Z 0) c = true ->
        exists p,
          percentage_savings (monthly_savings c cost) c = Ok (PyFloat p)
          /\ num_sign (PyFloat p) = fsign (monthly_savings c cost))
  /\ (forall c savings,
        feqb c (float_of_Z 0) = true ->
        percentage_savings savings c = Ok (PyInt 0)
        /\ num_sign (PyInt 0) = Some false).
Proof.
  split; [|split].
  - intros c cost. reflexivity.
  - intros c cost Hf Hp. destruct (positive_finite_inv c Hf Hp) as (m & e & ->).
    eexists. split.
    + rewrite percentage_savings_value. reflexivity.
    + apply fsign_percentage.
  - intros c savings Hz. split; [|reflexivity].
    now rewrite percentage_savings_value, Hz.
Qed.

(** The worked example: at a current cost of 3000 the savings and the
    percentage are both non-negative. *)
Lemma percentage_sign_follows_savings_witness :
  is_finite (float_of_Z 3000) = true
  /\ fltb (float_of_Z 0) (float_of_Z 3000) = true
  /\ exists p,
       percentage_savings (monthly_savings (float_of_Z 3000) (decimal 267410 2))
                          (float_of_Z 3000) = Ok (PyFloat p)
       /\ num_sign (PyFloat p)
          = fsign (monthly_savings (float_of_Z 3000) (decimal 267410 2)).
Proof.
  split; [reflexivity|]. split; [reflexivity|].
  exact (proj1 (proj2 percentage_sign_follows_savings)
           (float_of_Z 3000) (decimal 267410 2) eq_refl eq_refl).
Defined.

(** C3 as stated fails: one machine at the default rate with the current
    cost left at 0.0 gives monthly savings of -864.35, a cost increase,
    and a percentage of [0], which is not negative. *)
Lemma percentage_sign_follows_savings_counterexample :
  exists cost savings percentage,
    lekalink_cost initial_state one_vm_form = Ok cost
    /\ savings = monthly_savings (current_cost one_vm_form) cost
    /\ percentage_savings savings (current_cost one_vm_form) = Ok percentage
    /\ format_2f savings = "-864.35"
    /\ fsign savings = Some true
    /\ percentage = PyInt 0
    /\ num_sign percentage = Some false.
Proof.
  eexists. eexists. eexists.
  split; [vm_compute; reflexivity|].
  split; [reflexivity|].
  split; [vm_compute; reflexivity|].
  repeat split; vm_compute; reflexivity.
Qed.

(* ================================================================== *)
(** * Rendering the quote *)

(** Runs [create_pdf] on a symbolic quote: the statements are executed, the
    numbers and the texts are left as they are written. *)
Ltac run_pdf :=
  cbv beta iota zeta delta
    [create_pdf logo_block text_block bind try_except eval raise ret canvas
     c_drawString move_down local in_globals emit set_y_position
     set_y_position_logo logo_exists ImageReader_getSize c_drawImage letter
     c y_position y_position_logo globals fst snd negb List.app
     fill_purple fill_black PURPLE_RGB int_truediv Z.eqb].

Ltac find_in := repeat first [ left; reflexivity | right ].

Ltac pdf_facts :=
  eexists; split; [reflexivity|]; split;
  [ intros l Hin; cbv [item_lines In] in Hin; cbv [texts In];
    decompose [or] Hin; subst; try contradiction; find_in
  | reflexivity ].

(** A file [ImageReader] rejects: the handler of the logo block reports it,
    and line 237, which tests the path again, reads a [y_position_logo]
    that was never assigned. *)
Lemma create_pdf_unreadable e data s err :
  logo e = LogoUnreadable err ->
  create_pdf e data s
  = (Raise unbound_y_position_logo,
     log s (st_error ("Error loading LekaLink logo for PDF: " ++ str_exn err))).
Proof.
  intros H. unfold create_pdf, logo_block, text_block. rewrite H.
  run_pdf. reflexivity.
Qed.

Lemma create_pdf_unusable e data s :
  logo_usable (logo e) = false ->
  exists s', create_pdf e data s = (Raise unbound_y_position_logo, s').
Proof.
  intros Hl. destruct (logo e) as [|err|w h d] eqn:E; try discriminate Hl.
  - eexists. apply create_pdf_unreadable. exact E.
  - simpl in Hl. apply negb_false_iff, Z.eqb_eq in Hl. subst w.
    unfold create_pdf, logo_block, text_block. rewrite E.
    run_pdf. eexists. reflexivity.
Qed.

(** With no logo, or one whose size can be read, the render returns a
    document with the four lines of the estimate; the image is in it when
    the logo could be drawn. *)
Lemma create_pdf_usable e data s vm_amount :
  logo_usable (logo e) = true ->
  int_mul_np (quote_data.vms data) (quote_data.vm_rate data) = Ok vm_amount ->
  exists doc,
    create_pdf e data s = (Ok doc, logs s (logo_events (logo e)))
    /\ incl (item_lines data vm_amount) (texts doc)
    /\ has_image doc = match logo e with
                       | LogoImage _ _ None => true
                       | _ => false
                       end.
Proof.
  intros Hl Ha. unfold create_pdf, logo_block, text_block.
  destruct (logo e) as [|err|w h [err|]]; try discriminate Hl.
  - run_pdf. rewrite Ha. run_pdf.
    destruct (fleb _ _); run_pdf; pdf_facts.
  - destruct w as [|p|p]; [discriminate Hl| |];
      run_pdf; rewrite Ha; run_pdf;
      destruct (fleb _ _); run_pdf; pdf_facts.
  - destruct w as [|p|p]; [discriminate Hl| |];
      run_pdf; rewrite Ha; run_pdf;
      destruct (fleb _ _); run_pdf; pdf_facts.
Qed.

(** C8, where the code breaks it.  When the file at the logo path exists
    and [ImageReader] rejects it, [create_pdf] reports the error and then
    raises [UnboundLocalError] instead of returning a document, for every
    quote; a run of the page on the example form stops there, before the
    download button and the mail. *)
Theorem create_pdf_fails_on_unreadable_logo :
  (forall a p t err data s,
      create_pdf {| assets_dir_exists := a; price_sheet := p;
                    logo := LogoUnreadable err; smtp := t |} data s
      = (Raise unbound_y_position_logo,
         log s (st_error ("Error loading LekaLink logo for PDF: "
                          ++ str_exn err))))
  /\ (let r := run (env_with example_sheet unreadable_logo SmtpDelivers)
                   example_form in
      fst r = Raise unbound_y_position_logo
      /\ forall ev, In ev (out (snd r)) ->
                    match ev with
                    | st_download_button _ _ _ _ | sendmail _ _ _ _ _ => False
                    | _ => True
                    end).
Proof.
  split.
  - intros a p t err data s. now apply create_pdf_unreadable.
  - vm_compute. split; [reflexivity|].
    intros ev H. decompose [or] H; subst; try exact I; contradiction.
Qed.

(* ================================================================== *)
(** * Sending the quote *)

Lemma send_email_raises e err recipient subject body data name s :
  smtp e = SmtpRaises err ->
  send_email e recipient subject body data name s
  = (Ok false, log s (st_error ("Failed to send email: " ++ str_exn err))).
Proof.
  intros H. unfold send_email, try_except. rewrite H. reflexivity.
Qed.

(** The handler after the results card, when the render returns and the
    transport raises. *)
Lemma deliver_send_fails e w cost savings percentage data s err vm_amount :
  smtp e = SmtpRaises err ->
  logo_usable (logo e) = true ->
  int_mul_np (quote_data.vms data) (quote_data.vm_rate data) = Ok vm_amount ->
  exists pdf_output,
    fst (create_pdf e data s) = Ok pdf_output
    /\ fst (deliver e w cost savings percentage data s) = Ok tt
    /\ out (snd (deliver e w cost savings percentage data s))
       = (out s ++ logo_events (logo e)
          ++ [ st_download_button "Download Quote as PDF" pdf_output
                 (quote_file_name (company_name w)) "application/pdf";
               st_error ("Failed to send email: " ++ str_exn err);
               st_error send_failed_message ])%list.
Proof.
  intros Hs Hl Ha.
  destruct (create_pdf_usable e data s vm_amount Hl Ha) as (doc & Hdoc & _).
  exists doc. unfold deliver, bind. rewrite Hdoc.
  cbn [fst emit]. rewrite (send_email_raises _ err) by exact Hs.
  cbn [fst snd emit]. rewrite !out_log, out_logs, <- !app_assoc.
  repeat split.
Qed.

Lemma results_events_no_success cost savings percentage msg :
  ~ In (st_success msg) (results_events cost savings percentage).
Proof.
  unfold results_events, savings_html.
  destruct (fleb _ _); simpl;
    intros H; decompose [or] H; try discriminate; contradiction.
Qed.

Lemma logo_events_no_success l msg : ~ In (st_success msg) (logo_events l).
Proof.
  destruct l as [|err|w h [err|]]; simpl;
    intros H; decompose [or] H; try discriminate; contradiction.
Qed.

(** C9.  When the transport raises, [send_email] catches the exception,
    reports it and returns [False], whatever it was asked to send.  A run of
    the handler that got as far as a rendered document then ends normally:
    after what it had shown, it offers the document for download, and the
    last thing it shows is the failure message, no success message being
    shown. *)
Theorem send_failure_is_caught_and_reported :
  forall e err,
    smtp e = SmtpRaises err ->
    (forall recipient subject body data name s,
        send_email e recipient subject body data name s
        = (Ok false, log s (st_error ("Failed to send email: " ++ str_exn err))))
    /\ (forall w s,
          contact_complete w = true ->
          0 <= vms w < 2 ^ 53 ->
          logo_usable (logo e) = true ->
          exists shown pdf_output,
            fst (on_click e w s) = Ok tt
            /\ out (snd (on_click e w s))
               = (out s ++ shown
                  ++ [ st_download_button "Download Quote as PDF" pdf_output
                         (quote_file_name (company_name w)) "application/pdf";
                       st_error ("Failed to send email: " ++ str_exn err);
                       st_error send_failed_message ])%list
            /\ (forall msg, ~ In (st_success msg) shown)
            /\ texts pdf_output <> []).
Proof.
  intros e err Hs. split.
  - intros. now apply send_email_raises.
  - intros w s Hc Hv Hl.
    pose proof (lekalink_cost_in_range s w Hv) as Hcost.
    set (cost := (np_float (machines_amount (vms w) (VM_RATE s))
                  + storage w * np_float (STORAGE_RATE_PER_TB s)
                  + bandwidth w * np_float (BANDWIDTH_RATE_PER_MBPS s))%f64) in *.
    pose proof (quote_block_run e w s cost Hcost) as Hq. cbv zeta in Hq.
    set (savings := monthly_savings (current_cost w) cost) in *.
    set (percentage := if feqb (current_cost w) (float_of_Z 0) then PyInt 0
                       else PyFloat (savings / current_cost w * float_of_Z 100)%f64) in *.
    set (data := make_quote_data s w cost savings percentage) in *.
    assert (Ha : int_mul_np (quote_data.vms data) (quote_data.vm_rate data)
                 = Ok (machines_amount (vms w) (VM_RATE s)))
      by (apply int_mul_np_in_range; exact Hv).
    destruct (create_pdf_usable e data
                (logs s (results_events cost savings percentage)) _ Hl Ha)
      as (doc & Hdoc & Hlines & _).
    destruct (deliver_send_fails e w cost savings percentage data
                (logs s (results_events cost savings percentage)) err _ Hs Hl Ha)
      as (doc' & Hdoc' & Hok & Hout).
    rewrite Hdoc in Hdoc'. cbn [fst] in Hdoc'. inversion Hdoc'; subst doc'.
    exists (results_events cost savings percentage ++ logo_events (logo e))%list, doc.
    rewrite (on_click_complete e w s Hc), Hq.
    split; [exact Hok|]. split; [|split].
    + rewrite Hout, out_logs, <- !app_assoc. reflexivity.
    + intros msg H. apply in_app_or in H. destruct H as [H|H].
      * exact (results_events_no_success _ _ _ _ H).
      * exact (logo_events_no_success _ _ H).
    + intros E. specialize (Hlines _ (or_introl eq_refl)).
      rewrite E in Hlines. exact Hlines.
Qed.

(** The example form on a page whose mail server refuses the connection. *)
Lemma send_failure_is_caught_and_reported_witness :
  let e := env_with example_sheet LogoMissing
                    (SmtpRaises (OtherException "Connection refused")) in
  smtp e = SmtpRaises (OtherException "Connection refused")
  /\ contact_complete example_form = true
  /\ 0 <= vms example_form < 2 ^ 53
  /\ logo_usable (logo e) = true
  /\ exists shown pdf_output,
       fst (on_click e example_form initial_state) = Ok tt
       /\ out (snd (on_click e example_form initial_state))
          = (out initial_state ++ shown
             ++ [ st_download_button "Download Quote as PDF" pdf_output
                    (quote_file_name (company_name example_form))
                    "application/pdf";
                  st_error "Failed to send email: Connection refused";
                  st_error send_failed_message ])%list
       /\ (forall msg, ~ In (st_success msg) shown)
       /\ texts pdf_output <> [].
Proof.
  assert (Hv : 0 <= vms example_form < 2 ^ 53)
    by (vm_compute; split; [discriminate|reflexivity]).
  split; [reflexivity|]. split; [reflexivity|]. split; [exact Hv|].
  split; [reflexivity|].
  exact (proj2 (send_failure_is_caught_and_reported
                  (env_with example_sheet LogoMissing
                            (SmtpRaises (OtherException "Connection refused")))
                  (OtherException "Connection refused") eq_refl)
           example_form initial_state eq_refl Hv eq_refl).
Defined.

(* ================================================================== *)
(** * The estimate in the document *)

(** ** What [:.2f] prints *)










(* ================================================================== *)
(** * Further properties: the rendered document *)

Ltac pdf_document :=
  eexists; split; [reflexivity|]; split; [|split; [|split]];
  [ cbv [texts quote_text client_lines savings_lines item_lines List.app]; reflexivity
  | reflexivity
  | reflexivity
  | repeat constructor ].

Lemma create_pdf_document e data s vm_amount :
  logo_usable (logo e) = true ->
  int_mul_np (quote_data.vms data) (quote_data.vm_rate data) = Ok vm_amount ->
  exists doc,
    create_pdf e data s = (Ok doc, logs s (logo_events (logo e)))
    /\ texts doc = quote_text data vm_amount
    /\ has_image doc = match logo e with
                       | LogoImage _ _ None => true
                       | _ => false
                       end
    /\ pages doc = 1%nat
    /\ left_aligned doc.
Proof.
  intros Hl Ha. unfold create_pdf, logo_block, text_block, quote_text, savings_lines.
  destruct (logo e) as [|err|w h [err|]]; try discriminate Hl.
  - run_pdf. rewrite Ha. run_pdf.
    destruct (fleb _ _); run_pdf; pdf_document.
  - destruct w as [|p|p]; [discriminate Hl| |];
      run_pdf; rewrite Ha; run_pdf;
      destruct (fleb _ _); run_pdf; pdf_document.
  - destruct w as [|p|p]; [discriminate Hl| |];
      run_pdf; rewrite Ha; run_pdf;
      destruct (fleb _ _); run_pdf; pdf_document.
Qed.

Lemma create_pdf_overflow e data s ex :
  int_mul_np (quote_data.vms data) (quote_data.vm_rate data) = Raise ex ->
  exists ex' s', create_pdf e data s = (Raise ex', s').
Proof.
  intros Ha.
  destruct (logo_usable (logo e)) eqn:Hl.
  - unfold create_pdf, logo_block, text_block.
    destruct (logo e) as [|err|w h [err|]]; try discriminate Hl.
    + run_pdf. rewrite Ha. run_pdf. eauto.
    + destruct w as [|p|p]; [discriminate Hl| |];
        run_pdf; rewrite Ha; run_pdf; eauto.
    + destruct w as [|p|p]; [discriminate Hl| |];
        run_pdf; rewrite Ha; run_pdf; eauto.
  - destruct (create_pdf_unusable e data s Hl) as [s' H]. eauto.
Qed.

(* ================================================================== *)
(** * Further properties: delivery *)

Lemma send_email_delivers e recipient subject body doc name s :
  smtp e = SmtpDelivers ->
  send_email e recipient subject body (Some doc) (Some name) s
  = (Ok true,
     log s (sendmail SENDER_EMAIL recipient subject body
              (if is_empty name then None else Some (doc, name)))).
Proof.
  intros H. unfold send_email, try_except, bind. rewrite H. reflexivity.
Qed.

Lemma send_email_returns e recipient subject body data name s :
  exists sent s', send_email e recipient subject body data name s = (Ok sent, s').
Proof.
  unfold send_email, try_except. cbv zeta.
  destruct (smtp e); cbv beta iota delta [bind raise emit ret]; eauto.
Qed.

Lemma quote_file_name_not_empty company : is_empty (quote_file_name company) = false.
Proof. reflexivity. Qed.

(** X1.  When the mail goes through, a run of the handler on a complete
    form ends normally and shows, after the results card and what the logo
    gave rise to, the download button, the mail and the success message, in
    that order.  The mail goes from the fixed sender to the sales address
    with the document of the download button attached under the same file
    name, and the text of that document is the text of the quote.  The
    cost in all of them is the one the formula gives in the arithmetic of
    the rates: with an [int64] machine rate the machine amount is the
    64-bit product. *)
Theorem quote_is_delivered :
  forall e w s,
    smtp e = SmtpDelivers ->
    contact_complete w = true ->
    0 <= vms w < 2 ^ 53 ->
    logo_usable (logo e) = true ->
    let vm_amount := machines_amount (vms w) (VM_RATE s) in
    let cost := (np_float vm_amount
                 + storage w * np_float (STORAGE_RATE_PER_TB s)
                 + bandwidth w * np_float (BANDWIDTH_RATE_PER_MBPS s))%f64 in
    let savings := (current_cost w - cost)%f64 in
    let percentage :=
      if feqb (current_cost w) (float_of_Z 0) then PyInt 0
      else PyFloat (savings / current_cost w * float_of_Z 100)%f64 in
    let data := make_quote_data s w cost savings percentage in
    let file := quote_file_name (company_name w) in
    exists pdf_output,
      fst (on_click e w s) = Ok tt
      /\ out (snd (on_click e w s))
         = (out s ++ results_events cost savings percentage
            ++ logo_events (logo e)
            ++ [ st_download_button "Download Quote as PDF" pdf_output file
                   "application/pdf";
                 sendmail SENDER_EMAIL sales_email
                   ("New LekaLink Cloud Cost Quote for " ++ company_name w)
                   (email_body w cost savings percentage)
                   (Some (pdf_output, file));
                 st_success send_success_message ])%list
      /\ texts pdf_output = quote_text data vm_amount.
Proof.
  intros e w s Hs Hc Hv Hl vm_amount cost savings percentage data file.
  pose proof (lekalink_cost_in_range s w Hv) as Hcost.
  fold vm_amount cost in Hcost.
  pose proof (quote_block_run e w s cost Hcost) as Hq. cbv zeta in Hq.
  unfold monthly_savings in Hq. fold savings percentage data in Hq.
  assert (Ha : int_mul_np (quote_data.vms data) (quote_data.vm_rate data)
               = Ok vm_amount)
    by (apply int_mul_np_in_range; exact Hv).
  destruct (create_pdf_document e data
              (logs s (results_events cost savings percentage)) _ Hl Ha)
    as (doc & Hdoc & Htext & _).
  exists doc.
  rewrite (on_click_complete e w s Hc), Hq.
  unfold deliver, bind. rewrite Hdoc. cbn [emit].
  rewrite (send_email_delivers e _ _ _ _ _ _ Hs).
  rewrite quote_file_name_not_empty. cbn [emit fst snd].
  split; [reflexivity|]. split; [|exact Htext].
  rewrite !out_log, !out_logs, <- !app_assoc. reflexivity.
Qed.

(** X2.  For a machine count the number input can deliver, a run of the
    script raises in one case only: the button was pressed, the contact
    fields are complete, and the logo file is there without a readable size
    of non-zero width.  It then raises the [UnboundLocalError] of line 237;
    every other run ends normally. *)
Theorem run_fails_only_on_unusable_logo :
  forall e w,
    0 <= vms w < 2 ^ 53 ->
    fst (run e w)
    = if button w && contact_complete w && negb (logo_usable (logo e))
      then Raise unbound_y_position_logo
      else Ok tt.
Proof.
  intros e w Hv. unfold run. rewrite script_runs.
  set (s := logs _ page_events).
  destruct (button w); [|reflexivity]. cbn [andb].
  destruct (contact_complete w) eqn:Hc; cbn [andb].
  - rewrite (on_click_complete e w s Hc).
    pose proof (lekalink_cost_in_range s w Hv) as Hcost.
    rewrite (quote_block_run e w s _ Hcost).
    set (data := make_quote_data _ _ _ _ _).
    set (s1 := logs s _).
    assert (Ha : int_mul_np (quote_data.vms data) (quote_data.vm_rate data)
                 = Ok (machines_amount (vms w) (VM_RATE s)))
      by (apply int_mul_np_in_range; exact Hv).
    unfold deliver, bind.
    destruct (logo_usable (logo e)) eqn:Hl; cbn [negb].
    + destruct (create_pdf_document e data s1 _ Hl Ha) as (doc & -> & _).
      cbn [emit].
      match goal with
      | |- context [send_email ?a ?b ?c ?d ?x ?y ?z] =>
          destruct (send_email_returns a b c d x y z) as (sent & s' & ->)
      end.
      destruct sent; reflexivity.
    + destruct (create_pdf_unusable e data s1 Hl) as (s' & ->). reflexivity.
  - destruct (validate_inputs_incomplete w s Hc) as (msg & _ & Hval).
    unfold on_click, bind. rewrite Hval. reflexivity.
Qed.

(* ================================================================== *)
(** * Further properties: what the handler leaves alone *)

Section Steps.
Context {S : Type} (R : S -> S -> Prop).
Hypothesis R_refl : forall s, R s s.
Hypothesis R_trans : forall a b c, R a b -> R b c -> R a c.

Lemma steps_ret {A} (a : A) : steps R (ret a).
Proof. intros s. apply R_refl. Qed.

Lemma steps_raise {A} ex : steps R (@raise S A ex).
Proof. intros s. apply R_refl. Qed.

Lemma steps_eval {A} (r : result A) : steps R (eval r).
Proof. intros s. apply R_refl. Qed.

Lemma steps_bind {A B} (m : M S A) (k : A -> M S B) :
  steps R m -> (forall a, steps R (k a)) -> steps R (bind m k).
Proof.
  intros Hm Hk s. unfold bind. specialize (Hm s).
  destruct (m s) as [[a|ex] s']; simpl in Hm.
  - eapply R_trans; [exact Hm|apply Hk].
  - exact Hm.
Qed.

Lemma steps_try_except {A} (m : M S A) (h : exn -> M S A) :
  steps R m -> (forall ex, steps R (h ex)) -> steps R (try_except m h).
Proof.
  intros Hm Hh s. unfold try_except. specialize (Hm s).
  destruct (m s) as [[a|ex] s']; simpl in Hm.
  - exact Hm.
  - eapply R_trans; [exact Hm|apply Hh].
Qed.

Lemma steps_if {A} (b : bool) (m1 m2 : M S A) :
  steps R m1 -> steps R m2 -> steps R (if b then m1 else m2).
Proof. now destruct b. Qed.
End Steps.

Lemma adds_refl s : adds_sales_mail_only s s.
Proof. exists []. split; [now rewrite app_nil_r|constructor]. Qed.

Lemma adds_trans a b c :
  adds_sales_mail_only a b -> adds_sales_mail_only b c -> adds_sales_mail_only a c.
Proof.
  intros (l1 & H1 & F1) (l2 & H2 & F2). exists (l1 ++ l2)%list. split.
  - now rewrite H2, H1, app_assoc.
  - apply Forall_app. split; assumption.
Qed.

Lemma handler_step_refl s : handler_step s s.
Proof. repeat split. apply adds_refl. Qed.

Lemma handler_step_trans a b c :
  handler_step a b -> handler_step b c -> handler_step a c.
Proof.
  intros (V1 & S1 & B1 & A1) (V2 & S2 & B2 & A2).
  repeat split; try congruence. eapply adds_trans; eassumption.
Qed.

Lemma in_frame_refl f : in_frame handler_step f f.
Proof. apply handler_step_refl. Qed.

Lemma in_frame_trans a b c :
  in_frame handler_step a b -> in_frame handler_step b c -> in_frame handler_step a c.
Proof. apply handler_step_trans. Qed.

Lemma handler_step_log s ev : mail_goes_to_sales ev -> handler_step s (log s ev).
Proof.
  intros H. repeat split. exists [ev]. split; [reflexivity|].
  constructor; [exact H|constructor].
Qed.

Lemma steps_emit ev : mail_goes_to_sales ev -> steps handler_step (emit ev).
Proof. intros H s. now apply handler_step_log. Qed.

Lemma steps_emit_all evs :
  Forall mail_goes_to_sales evs -> steps handler_step (emit_all evs).
Proof.
  induction 1 as [|ev evs Hev _ IH]; simpl.
  - apply steps_ret, handler_step_refl.
  - apply steps_bind; [apply handler_step_trans|now apply steps_emit|intros; exact IH].
Qed.

Lemma steps_get_state : steps handler_step get_state.
Proof. intros s. apply handler_step_refl. Qed.

Lemma steps_in_globals {A} (m : M state A) :
  steps handler_step m -> steps (in_frame handler_step) (in_globals m).
Proof.
  intros H f. unfold in_globals, in_frame. specialize (H (globals f)).
  destruct (m (globals f)) as [r s]. exact H.
Qed.

Lemma steps_canvas op : steps (in_frame handler_step) (canvas op).
Proof. intros f. apply handler_step_refl. Qed.

Lemma steps_set_y_position_logo y :
  steps (in_frame handler_step) (set_y_position_logo y).
Proof. intros f. apply handler_step_refl. Qed.

Lemma steps_set_y_position y : steps (in_frame handler_step) (set_y_position y).
Proof. intros f. apply handler_step_refl. Qed.

Lemma steps_local n g : steps (in_frame handler_step) (local n g).
Proof.
  intros f. unfold local. destruct (g f); apply handler_step_refl.
Qed.

Create HintDb steps.
#[local] Hint Resolve handler_step_refl handler_step_trans in_frame_refl
  in_frame_trans steps_get_state steps_in_globals steps_canvas
  steps_set_y_position_logo steps_set_y_position steps_local : steps.
#[local] Hint Extern 1 (steps _ (ret _)) =>
  apply steps_ret; solve [auto with steps] : steps.
#[local] Hint Extern 1 (steps _ (raise _)) =>
  apply steps_raise; solve [auto with steps] : steps.
#[local] Hint Extern 1 (steps _ (eval _)) =>
  apply steps_eval; solve [auto with steps] : steps.
#[local] Hint Extern 1 (steps _ (emit _)) => apply steps_emit; exact I : steps.

Ltac steps_tac :=
  repeat first
    [ solve [auto with steps]
    | apply steps_bind;
      [first [exact in_frame_trans | exact handler_step_trans]| |intros]
    | apply steps_try_except;
      [first [exact in_frame_trans | exact handler_step_trans]| |intros]
    | apply steps_if
    | progress cbv zeta
    | match goal with
      | |- steps _ (match ?x with _ => _ end) => destruct x
      | |- steps _ (let (_, _) := ?x in _) => destruct x
      end ].

Lemma steps_c_drawString t : steps (in_frame handler_step) (c_drawString t).
Proof. unfold c_drawString. steps_tac. Qed.

Lemma steps_move_down k : steps (in_frame handler_step) (move_down k).
Proof. unfold move_down. steps_tac. Qed.

Lemma steps_c_drawImage l x y w h :
  steps (in_frame handler_step) (c_drawImage l x y w h).
Proof. unfold c_drawImage. steps_tac. Qed.

#[local] Hint Resolve steps_c_drawString steps_move_down steps_c_drawImage : steps.

Lemma steps_logo_block e : steps (in_frame handler_step) (logo_block e).
Proof. unfold logo_block. simpl. steps_tac. Qed.

Lemma steps_text_block e data : steps (in_frame handler_step) (text_block e data).
Proof. unfold text_block. simpl. steps_tac. Qed.

Lemma steps_create_pdf e data : steps handler_step (create_pdf e data).
Proof.
  intros s. unfold create_pdf.
  assert (H : steps (in_frame handler_step) (logo_block e;; text_block e data)).
  { apply steps_bind; [apply in_frame_trans|apply steps_logo_block
                      |intros; apply steps_text_block]. }
  specialize (H {| c := []; y_position_logo := None; y_position := None;
                   globals := s |}).
  unfold in_frame in H. simpl in H.
  destruct ((logo_block e;; text_block e data) _) as [[a|ex] f]; exact H.
Qed.

Lemma steps_send_email e subject body data name :
  steps handler_step (send_email e sales_email subject body data name).
Proof.
  unfold send_email.
  apply steps_try_except; [apply handler_step_trans| |intros; steps_tac].
  cbv zeta. destruct (smtp e); [|steps_tac].
  apply steps_bind; [apply handler_step_trans| |intros; steps_tac].
  apply steps_emit. split; reflexivity.
Qed.

Lemma steps_validate_inputs a b c d f :
  steps handler_step (validate_inputs a b c d f).
Proof. unfold validate_inputs. steps_tac. Qed.

Lemma savings_html_no_mail savings percentage :
  Forall mail_goes_to_sales (savings_html savings percentage).
Proof.
  unfold savings_html. destruct (fleb _ _); repeat constructor.
Qed.

#[local] Hint Resolve steps_create_pdf steps_send_email steps_validate_inputs : steps.

Lemma steps_on_click e w : steps handler_step (on_click e w).
Proof.
  unfold on_click, quote_block, show_results, deliver.
  pose proof savings_html_no_mail.
  pose proof steps_emit_all.
  steps_tac.
Qed.

(** X3.  The button handler never changes the three rates, whatever the
    form and the environment, and whether it returns or raises. *)
Theorem handler_keeps_rates :
  forall e w s,
    VM_RATE (snd (on_click e w s)) = VM_RATE s
    /\ STORAGE_RATE_PER_TB (snd (on_click e w s)) = STORAGE_RATE_PER_TB s
    /\ BANDWIDTH_RATE_PER_MBPS (snd (on_click e w s)) = BANDWIDTH_RATE_PER_MBPS s.
Proof.
  intros e w s. destruct (steps_on_click e w s) as (Hv & Hs & Hb & _). auto.
Qed.

(* ================================================================== *)
(** * Further properties: what the loader reports *)

Lemma load_prices_out_loaded e s df d u :
  loaded_sheet e = Some (df, d, u) ->
  out (snd (load_prices e s)) = (out s ++ fallback_warnings df d u)%list.
Proof.
  intros H. destruct (loaded_sheet_inv _ _ _ _ H) as (Ha & Hp & Hd & Hu).
  unfold load_prices, load_block, try_except, bind, eval, fallback_warnings.
  rewrite Ha, Hp. cbn [negb ret].
  rewrite (getitem_column _ _ _ Hu), (getitem_column _ _ _ Hd).
  cbn [pd_to_numeric loc_description].
  rewrite !first_price_listed.
  destruct (listed_price df d u VM_LABEL), (listed_price df d u STORAGE_LABEL);
    cbn; rewrite ?out_log; cbn; rewrite ?app_nil_r, <- ?app_assoc; reflexivity.
Qed.

Lemma load_handler_reports ex s :
  exists ev, load_handler ex s = (Ok tt, log s ev)
             /\ is_report ev
             /\ (match ex with FileNotFoundError _ => True
                 | _ => exists msg, ev = st_error msg end).
Proof. destruct ex; simpl; eexists; repeat split; eauto. Qed.

Lemma load_prices_out_not_loaded e s :
  loaded_sheet e = None ->
  exists l,
    out (snd (load_prices e s)) = (out s ++ l)%list
    /\ l <> []
    /\ Forall is_report l
    /\ ((exists msg, In (st_error msg) l)
        \/ (assets_dir_exists e = true
            /\ exists msg, price_sheet e = Some (Raise (FileNotFoundError msg)))).
Proof.
  unfold loaded_sheet, load_prices, load_block, try_except, bind, eval.
  destruct (assets_dir_exists e); cbn [negb ret emit raise load_handler].
  2:{ intros _. eexists. cbn. rewrite !out_log, <- app_assoc. cbn.
      split; [reflexivity|]. split; [discriminate|].
      split; [repeat constructor|]. left. eexists. left. reflexivity. }
  destruct (price_sheet e) as [[df|ex]|]; cbn [emit raise].
  3:{ intros _. eexists. cbn. rewrite !out_log, <- app_assoc. cbn.
      split; [reflexivity|]. split; [discriminate|].
      split; [repeat constructor|]. left. eexists. left. reflexivity. }
  2:{ intros _. destruct (load_handler_reports ex s) as (ev & -> & Hr & Hk).
      exists [ev]. cbn. rewrite out_log.
      split; [reflexivity|]. split; [discriminate|].
      split; [repeat constructor; exact Hr|].
      destruct ex as [m|k|m|m|m|m|m|m];
        [ right; split; [reflexivity|eexists; reflexivity]
        | left; destruct Hk as [shown ->]; eexists; left; reflexivity .. ]. }
  assert (Hfin : forall ex, match ex with FileNotFoundError _ => False | _ => True end ->
            exists l, out (snd (load_handler ex s)) = (out s ++ l)%list
              /\ fst (load_handler ex s) = Ok tt
              /\ l <> [] /\ Forall is_report l /\ exists msg, In (st_error msg) l).
  { intros ex Hex. destruct (load_handler_reports ex s) as (ev & -> & Hr & Hk).
    exists [ev]. cbn. rewrite out_log. repeat split; try discriminate.
    - repeat constructor; exact Hr.
    - destruct ex; try contradiction; destruct Hk as [shown ->];
        eexists; left; reflexivity. }
  destruct (column_index "Unit Monthly" df) as [u|] eqn:Eu.
  - rewrite (getitem_column _ _ _ Eu). cbn [pd_to_numeric].
    destruct (column_index "Description" df) as [d|] eqn:Ed; [discriminate|].
    intros _.
    destruct (getitem_no_column _ _ Ed) as [[key ->]|[width ->]];
      cbn [loc_description]; cbv beta iota;
      match goal with
      | |- context [load_handler ?ex s] =>
          destruct (Hfin ex I) as (l & Hout & _ & Hne & Hrep & Hpage)
      end;
      exists l; auto.
  - intros _.
    destruct (getitem_no_column _ _ Eu) as [[key ->]|[width ->]];
      cbn [pd_to_numeric]; cbv beta iota;
      match goal with
      | |- context [load_handler ?ex s] =>
          destruct (Hfin ex I) as (l & Hout & _ & Hne & Hrep & Hpage)
      end;
      exists l; auto.
Qed.

Lemma fallback_warnings_reports df d u : Forall is_report (fallback_warnings df d u).
Proof.
  unfold fallback_warnings.
  destruct (listed_price df d u VM_LABEL), (listed_price df d u STORAGE_LABEL);
    repeat constructor.
Qed.

Lemma load_prices_adds_reports e s :
  exists l, out (snd (load_prices e s)) = (out s ++ l)%list /\ Forall is_report l.
Proof.
  destruct (loaded_sheet e) as [[[df d] u]|] eqn:E.
  - exists (fallback_warnings df d u). split.
    + now apply load_prices_out_loaded.
    + apply fallback_warnings_reports.
  - destruct (load_prices_out_not_loaded e s E) as (l & H & _ & F & _). eauto.
Qed.

Lemma report_is_no_mail ev : is_report ev -> mail_goes_to_sales ev.
Proof. destruct ev; simpl; auto; contradiction. Qed.




(** X6.  A sheet without a [Unit Monthly] column makes the loader show the
    column error naming ['Unit Monthly'], and nothing else; a sheet with
    that column and without a [Description] column makes it name
    ['Description'].  The rates stay as they were. *)
Theorem missing_column_is_named :
  forall e s df,
    assets_dir_exists e = true ->
    price_sheet e = Some (Ok df) ->
    (positions "Unit Monthly" (map strip (columns df)) 0 = [] ->
     load_prices e s = (Ok tt, log s (column_error "Unit Monthly")))
    /\ (forall u,
          column_index "Unit Monthly" df = Some u ->
          positions "Description" (map strip (columns df)) 0 = [] ->
          load_prices e s = (Ok tt, log s (column_error "Description"))).
Proof.
  intros e s df Ha Hp. split.
  - intros Hu. unfold load_prices, load_block, try_except, bind, eval.
    rewrite Ha, Hp. cbn [negb ret]. unfold getitem. cbn [columns strip_columns].
    rewrite Hu. reflexivity.
  - intros u Hu Hd. unfold load_prices, load_block, try_except, bind, eval.
    rewrite Ha, Hp. cbn [negb ret]. rewrite (getitem_column _ _ _ Hu).
    unfold getitem. cbn [columns strip_columns]. rewrite Hd. reflexivity.
Qed.

Lemma missing_column_is_named_witness :
  load_prices (env_with no_price_column_sheet LogoMissing SmtpDelivers) initial_state
  = (Ok tt, log initial_state (column_error "Unit Monthly"))
  /\ load_prices (env_with no_description_sheet LogoMissing SmtpDelivers) initial_state
     = (Ok tt, log initial_state (column_error "Description")).
Proof.
  split.
  - exact (proj1 (missing_column_is_named
                    (env_with no_price_column_sheet LogoMissing SmtpDelivers)
                    initial_state no_price_column_sheet eq_refl eq_refl) eq_refl).
  - exact (proj2 (missing_column_is_named
                    (env_with no_description_sheet LogoMissing SmtpDelivers)
                    initial_state no_description_sheet eq_refl eq_refl)
             1%nat eq_refl eq_refl).
Defined.

Lemma page_events_no_mail : Forall mail_goes_to_sales page_events.
Proof. unfold page_events, page_layout. repeat constructor. Qed.

(** X7.  In every run of the script every mail goes from the fixed sender
    to the sales address, never to the address typed into the form.  When
    the button was not pressed or a contact field is empty, the run shows
    the reports of the loader, then the page (the style sheet, the header,
    the widgets and the button) and, when the button was pressed, the
    report of the first empty contact field, and nothing else: no results,
    no download, no mail. *)
Theorem run_output_kinds :
  forall e w,
    Forall mail_goes_to_sales (out (snd (run e w)))
    /\ (button w && contact_complete w = false ->
        exists reports,
          Forall is_report reports
          /\ out (snd (run e w))
             = (reports ++ page_events
                ++ match (if button w then first_missing w else None) with
                   | Some msg => [st_error msg]
                   | None => []
                   end)%list).
Proof.
  intros e w. unfold run. rewrite script_runs.
  destruct (load_prices_adds_reports e initial_state) as (l & Hl & Fl).
  change (out initial_state) with (@nil event) in Hl. cbn [List.app] in Hl.
  assert (Hs : out (logs (snd (load_prices e initial_state)) page_events)
               = (l ++ page_events)%list)
    by (rewrite out_logs, Hl; reflexivity).
  set (s := logs _ page_events) in *.
  assert (Fs : Forall mail_goes_to_sales (out s)).
  { rewrite Hs. apply Forall_app. split; [|exact page_events_no_mail].
    eapply Forall_impl; [|exact Fl]. apply report_is_no_mail. }
  destruct (button w); cbn [andb snd].
  - split.
    + destruct (steps_on_click e w s) as (_ & _ & _ & l' & Hl' & Fl').
      rewrite Hl'. apply Forall_app. split; assumption.
    + intros Hc. destruct (validate_inputs_incomplete w s Hc) as (msg & Hm & Hval).
      exists l. split; [exact Fl|].
      unfold on_click, bind. rewrite Hval. cbn [snd ret].
      rewrite out_log, Hs, Hm, <- app_assoc. reflexivity.
  - cbn [ret snd]. split; [exact Fs|]. intros _.
    exists l. split; [exact Fl|]. rewrite Hs, app_nil_r. reflexivity.
Qed.

(** With no assets directory and two contact fields left empty: the two
    reports of the loader, the page, and the report of the company name. *)
Lemma run_output_kinds_witness :
  button two_missing_form && contact_complete two_missing_form = false
  /\ exists reports,
       Forall is_report reports
       /\ out (snd (run bare_env two_missing_form))
          = (reports ++ page_events
             ++ [st_error "Company Name is required."])%list.
Proof.
  split; [reflexivity|].
  exact (proj2 (run_output_kinds bare_env two_missing_form) eq_refl).
Defined.

(** X8.  [create_pdf], given a quote whose machine amount can be computed,
    returns a document exactly when the logo is absent or has a readable
    size of non-zero width, and raises the [UnboundLocalError] of line 237
    otherwise.  When it returns, it has reported what happened to the logo,
    and the document holds the image exactly when [drawImage] went
    through: a failing [drawImage] is reported and the render goes on. *)
Theorem create_pdf_returns_iff_logo_usable :
  forall e data s vm_amount,
    int_mul_np (quote_data.vms data) (quote_data.vm_rate data) = Ok vm_amount ->
    ((exists doc s', create_pdf e data s = (Ok doc, s'))
     <-> logo_usable (logo e) = true)
    /\ (logo_usable (logo e) = false ->
        exists s', create_pdf e data s = (Raise unbound_y_position_logo, s'))
    /\ (forall doc s',
          create_pdf e data s = (Ok doc, s') ->
          s' = logs s (logo_events (logo e))
          /\ has_image doc = match logo e with
                             | LogoImage _ _ None => true
                             | _ => false
                             end).
Proof.
  intros e data s vm_amount Ha. split; [split|split].
  - intros (doc & s' & H). destruct (logo_usable (logo e)) eqn:Hl; [reflexivity|].
    destruct (create_pdf_unusable e data s Hl) as (s'' & Hr).
    rewrite Hr in H. discriminate H.
  - intros Hl. destruct (create_pdf_document e data s vm_amount Hl Ha) as (doc & H & _).
    eauto.
  - apply create_pdf_unusable.
  - intros doc s' H. destruct (logo_usable (logo e)) eqn:Hl.
    + destruct (create_pdf_document e data s vm_amount Hl Ha)
        as (doc' & H' & _ & Himg & _).
      rewrite H' in H. inversion H; subst. auto.
    + destruct (create_pdf_unusable e data s Hl) as (s'' & Hr).
      rewrite Hr in H. discriminate H.
Qed.

Lemma create_pdf_returns_iff_logo_usable_witness :
  let e := env_with example_sheet undrawable_logo SmtpDelivers in
  int_mul_np (quote_data.vms example_data) (quote_data.vm_rate example_data)
  = Ok (NpFloat (float_of_Z 2 * DEFAULT_VM_RATE)%f64)
  /\ ((exists doc s', create_pdf e example_data initial_state = (Ok doc, s'))
      <-> logo_usable (logo e) = true).
Proof.
  assert (Ha : int_mul_np (quote_data.vms example_data)
                 (quote_data.vm_rate example_data)
               = Ok (NpFloat (float_of_Z 2 * DEFAULT_VM_RATE)%f64)) by reflexivity.
  split; [exact Ha|].
  exact (proj1 (create_pdf_returns_iff_logo_usable
                  (env_with example_sheet undrawable_logo SmtpDelivers)
                  example_data initial_state _ Ha)).
Defined.

Lemma quote_text_length data vm_amount :
  List.length (quote_text data vm_amount) = 16%nat.
Proof.
  unfold quote_text, savings_lines. destruct (fleb _ _); reflexivity.
Qed.

(** X9.  Every document [create_pdf] returns is one page of sixteen lines,
    all starting one inch from the left edge; the lines are those of the
    quote, the same whatever the logo. *)
Theorem rendered_quote_is_one_page_of_fixed_text :
  forall e data s doc s',
    create_pdf e data s = (Ok doc, s') ->
    exists vm_amount,
      int_mul_np (quote_data.vms data) (quote_data.vm_rate data) = Ok vm_amount
      /\ texts doc = quote_text data vm_amount
      /\ List.length (texts doc) = 16%nat
      /\ pages doc = 1%nat
      /\ left_aligned doc.
Proof.
  intros e data s doc s' H.
  destruct (int_mul_np (quote_data.vms data) (quote_data.vm_rate data))
    as [vm_amount|ex] eqn:Ha.
  - exists vm_amount. split; [reflexivity|].
    destruct (logo_usable (logo e)) eqn:Hl.
    + destruct (create_pdf_document e data s vm_amount Hl Ha)
        as (doc' & H' & Ht & _ & Hp & Hx).
      rewrite H' in H. inversion H; subst doc'.
      repeat split; try assumption. rewrite Ht. apply quote_text_length.
    + destruct (create_pdf_unusable e data s Hl) as (s'' & Hr).
      rewrite Hr in H. discriminate H.
  - destruct (create_pdf_overflow e data s ex Ha) as (ex' & s'' & Hr).
    rewrite Hr in H. discriminate H.
Qed.

Lemma rendered_quote_is_one_page_of_fixed_text_witness :
  exists doc s',
    create_pdf bare_env example_data initial_state = (Ok doc, s')
    /\ exists vm_amount,
         int_mul_np (quote_data.vms example_data)
                       (quote_data.vm_rate example_data) = Ok vm_amount
         /\ texts doc = quote_text example_data vm_amount
         /\ List.length (texts doc) = 16%nat
         /\ pages doc = 1%nat
         /\ left_aligned doc.
Proof.
  destruct (create_pdf bare_env example_data initial_state) as [[doc|ex] s'] eqn:E.
  - exists doc, s'. split; [reflexivity|].
    exact (rendered_quote_is_one_page_of_fixed_text
             bare_env example_data initial_state doc s' E).
  - exfalso. vm_compute in E. discriminate E.
Defined.

Lemma quote_is_delivered_witness :
  let e := env_with example_sheet LogoMissing SmtpDelivers in
  smtp e = SmtpDelivers
  /\ contact_complete example_form = true
  /\ 0 <= vms example_form < 2 ^ 53
  /\ logo_usable (logo e) = true
  /\ exists pdf_output,
       fst (on_click e example_form initial_state) = Ok tt
       /\ In (sendmail SENDER_EMAIL sales_email
                "New LekaLink Cloud Cost Quote for Acme Ltd"
                (email_body example_form (decimal 267410 2)
                   (monthly_savings (float_of_Z 3000) (decimal 267410 2))
                   (PyFloat (monthly_savings (float_of_Z 3000) (decimal 267410 2)
                             / float_of_Z 3000 * float_of_Z 100)%f64))
                (Some (pdf_output, "LekaLink_Cloud_Quote_Acme_Ltd.pdf")))
             (out (snd (on_click e example_form initial_state))).
Proof.
  assert (Hv : 0 <= vms example_form < 2 ^ 53)
    by (vm_compute; split; [discriminate|reflexivity]).
  split; [reflexivity|]. split; [reflexivity|]. split; [exact Hv|].
  split; [reflexivity|].
  destruct (quote_is_delivered
              (env_with example_sheet LogoMissing SmtpDelivers)
              example_form initial_state eq_refl eq_refl Hv eq_refl)
    as (doc & Hok & Hout & _).
  exists doc. split; [exact Hok|].
  rewrite Hout. apply in_or_app. right. apply in_or_app. right.
  apply in_or_app. right. right. left. reflexivity.
Defined.

Lemma run_fails_only_on_unusable_logo_witness :
  0 <= vms example_form < 2 ^ 53
  /\ fst (run (env_with example_sheet undrawable_logo SmtpDelivers) example_form)
     = Ok tt
  /\ fst (run (env_with example_sheet (LogoImage 0 200 None) SmtpDelivers)
              example_form)
     = Raise unbound_y_position_logo.
Proof.
  assert (Hv : 0 <= vms example_form < 2 ^ 53)
    by (vm_compute; split; [discriminate|reflexivity]).
  split; [exact Hv|]. split.
  - exact (run_fails_only_on_unusable_logo
             (env_with example_sheet undrawable_logo SmtpDelivers) example_form Hv).
  - exact (run_fails_only_on_unusable_logo
             (env_with example_sheet (LogoImage 0 200 None) SmtpDelivers)
             example_form Hv).
Defined.

(* ================================================================== *)
(** * Further properties: rows and header names *)

Lemma listed_price_first df d u label pre r post :
  rows df = (pre ++ r :: post)%list ->
  (forall r', In r' pre -> cell_is label (nth d r' CNaN) = false) ->
  cell_is label (nth d r CNaN) = true ->
  listed_price df d u label
  = (let x := numeric (int64_column (column u df)) (nth u r CNaN) in
     if np_isna x then None else Some x).
Proof.
  intros Hrows Hpre Hr. unfold listed_price.
  set (int64 := int64_column (column u df)). rewrite Hrows. clear Hrows.
  induction pre as [|r0 pre IH]; simpl.
  - now rewrite Hr.
  - rewrite (Hpre r0 (or_introl eq_refl)). apply IH.
    intros r' Hin. apply Hpre. now right.
Qed.

(** X10.  When several rows of the sheet carry the machine label, the
    first one decides: its price, as a number of the type of the price
    column, is the rate, or the default when it is not a number, whatever
    prices the rows after it hold. *)
Theorem first_matching_row_decides :
  forall e s df d u pre r post,
    loaded_sheet e = Some (df, d, u) ->
    rows df = (pre ++ r :: post)%list ->
    (forall r', In r' pre -> cell_is VM_LABEL (nth d r' CNaN) = false) ->
    cell_is VM_LABEL (nth d r CNaN) = true ->
    VM_RATE (snd (load_prices e s))
    = (let x := numeric (int64_column (column u df)) (nth u r CNaN) in
       if np_isna x then NpFloat DEFAULT_VM_RATE else x).
Proof.
  intros e s df d u pre r post H Hrows Hpre Hr.
  destruct (load_prices_loaded e s df d u H) as (_ & Hvm & _).
  rewrite Hvm, (listed_price_first df d u VM_LABEL pre r post Hrows Hpre Hr).
  cbv zeta. now destruct (np_isna _).
Qed.

Lemma first_matching_row_decides_witness :
  VM_RATE (snd (load_prices (env_with repeated_label_sheet LogoMissing SmtpDelivers)
                            initial_state))
  = NpFloat DEFAULT_VM_RATE.
Proof.
  refine (first_matching_row_decides
            (env_with repeated_label_sheet LogoMissing SmtpDelivers) initial_state
            repeated_label_sheet 0%nat 1%nat
            [ [CStr "Setup fee"; CNum (float_of_Z 10)] ]
            [CStr VM_LABEL; CStr "on request"]
            [ [CStr VM_LABEL; CNum (float_of_Z 100)] ]
            eq_refl eq_refl _ eq_refl).
  intros r' [<-|[]]. reflexivity.
Defined.

Lemma lstrip_all_space p : all_space p = true -> lstrip p = EmptyString.
Proof.
  induction p as [|c p IH]; simpl; [reflexivity|].
  intros H. apply andb_prop in H. destruct H as [Hc Hp]. rewrite Hc. auto.
Qed.

Lemma rstrip_all_space p : all_space p = true -> rstrip p = EmptyString.
Proof.
  induction p as [|c p IH]; simpl; [reflexivity|].
  intros H. apply andb_prop in H. destruct H as [Hc Hp].
  rewrite (IH Hp), Hc. reflexivity.
Qed.

Lemma lstrip_pad p s : all_space p = true -> lstrip (p ++ s) = lstrip s.
Proof.
  induction p as [|c p IH]; [reflexivity|].
  intros H. simpl in H. apply andb_prop in H. destruct H as [Hc Hp].
  change (String c p ++ s) with (String c (p ++ s)). simpl. rewrite Hc. auto.
Qed.

Lemma rstrip_pad s q : all_space q = true -> rstrip (s ++ q) = rstrip s.
Proof.
  intros Hq. induction s as [|c s IH].
  - change (EmptyString ++ q) with q. now apply rstrip_all_space.
  - change (String c s ++ q) with (String c (s ++ q)). simpl. now rewrite IH.
Qed.

Lemma strip_pad_right s q : all_space q = true -> strip (s ++ q) = strip s.
Proof.
  intros Hq. unfold strip. induction s as [|c s IH].
  - change (EmptyString ++ q) with q. now rewrite lstrip_all_space.
  - change (String c s ++ q) with (String c (s ++ q)). simpl.
    destruct (is_space c); [exact IH|].
    change (String c (s ++ q)) with (String c s ++ q). now apply rstrip_pad.
Qed.

Lemma strip_padded name name' : padded name name' -> strip name' = strip name.
Proof.
  intros (p & q & Hp & Hq & ->). unfold strip. rewrite lstrip_pad by exact Hp.
  now apply strip_pad_right.
Qed.

(** X11.  Blanks before or after the header names of the sheet make no
    difference to what the loader does. *)
Theorem header_blanks_are_ignored :
  forall e e' df df' s,
    assets_dir_exists e' = assets_dir_exists e ->
    price_sheet e = Some (Ok df) ->
    price_sheet e' = Some (Ok df') ->
    rows df' = rows df ->
    Forall2 padded (columns df) (columns df') ->
    load_prices e' s = load_prices e s.
Proof.
  intros e e' df df' s Ha Hp Hp' Hrows Hcols.
  assert (Hstrip : strip_columns df' = strip_columns df).
  { unfold strip_columns. rewrite Hrows. f_equal.
    induction Hcols as [|a b la lb Hab _ IH]; simpl; [reflexivity|].
    now rewrite (strip_padded a b Hab), IH. }
  unfold load_prices, load_block. rewrite Ha, Hp, Hp'.
  unfold try_except, bind, eval. cbv zeta. rewrite Hstrip. reflexivity.
Qed.

Lemma header_blanks_are_ignored_witness :
  load_prices (env_with padded_header_sheet LogoMissing SmtpDelivers) initial_state
  = load_prices (env_with
                   {| columns := ["Description"; "Quantity"; "Unit Monthly"];
                      rows := rows example_sheet |}
                   LogoMissing SmtpDelivers) initial_state.
Proof.
  refine (header_blanks_are_ignored
            (env_with {| columns := ["Description"; "Quantity"; "Unit Monthly"];
                         rows := rows example_sheet |} LogoMissing SmtpDelivers)
            (env_with padded_header_sheet LogoMissing SmtpDelivers)
            _ _ initial_state eq_refl eq_refl eq_refl eq_refl _).
  repeat constructor.
  - exists " ", EmptyString. repeat split.
  - exists EmptyString, EmptyString. repeat split.
  - exists EmptyString, "  ". repeat split.
Defined.

(* ================================================================== *)
(** * Further properties: the file name *)

Lemma list_ascii_of_string_app a b :
  list_ascii_of_string (a ++ b)
  = (list_ascii_of_string a ++ list_ascii_of_string b)%list.
Proof.
  induction a as [|c a IH]; [reflexivity|].
  change (String c a ++ b) with (String c (a ++ b)). simpl. now rewrite IH.
Qed.

Lemma replace_space_no_blank s :
  ~ In " "%char (list_ascii_of_string (replace_space s)).
Proof.
  induction s as [|c s IH]; simpl; [tauto|].
  intros [H|H]; [|exact (IH H)].
  destruct (Ascii.eqb c " ") eqn:E; [discriminate H|].
  apply Ascii.eqb_neq in E. congruence.
Qed.

Lemma replace_space_length s :
  String.length (replace_space s) = String.length s.
Proof. induction s; simpl; congruence. Qed.

Lemma replace_space_keeps s :
  ~ In " "%char (list_ascii_of_string s) -> replace_space s = s.
Proof.
  induction s as [|c s IH]; simpl; [reflexivity|].
  intros H. destruct (Ascii.eqb c " ") eqn:E.
  - apply Ascii.eqb_eq in E. subst. tauto.
  - rewrite IH; tauto.
Qed.

Lemma length_append a b :
  String.length (a ++ b) = (String.length a + String.length b)%nat.
Proof.
  induction a as [|c a IH]; [reflexivity|].
  change (String c a ++ b) with (String c (a ++ b)). simpl. now rewrite IH.
Qed.

(** X12.  The file name of the quote holds no space, is 25 characters
    longer than the company name, and is the company name between the
    fixed prefix and [.pdf] when that name has no space. *)
Theorem quote_file_name_has_no_blank :
  forall company,
    ~ In " "%char (list_ascii_of_string (quote_file_name company))
    /\ String.length (quote_file_name company) = (String.length company + 25)%nat
    /\ (~ In " "%char (list_ascii_of_string company) ->
        quote_file_name company = "LekaLink_Cloud_Quote_" ++ company ++ ".pdf").
Proof.
  intros company. unfold quote_file_name. repeat split.
  - rewrite !list_ascii_of_string_app. intros H.
    apply in_app_or in H. destruct H as [H|H].
    + simpl in H. repeat (destruct H as [H|H]; [discriminate H|]). exact H.
    + apply in_app_or in H. destruct H as [H|H].
      * exact (replace_space_no_blank _ H).
      * simpl in H. repeat (destruct H as [H|H]; [discriminate H|]). exact H.
  - rewrite !length_append, replace_space_length. simpl. lia.
  - intros H. now rewrite replace_space_keeps.
Qed.

Lemma quote_file_name_has_no_blank_witness :
  ~ In " "%char (list_ascii_of_string "Acme")
  /\ quote_file_name "Acme" = "LekaLink_Cloud_Quote_" ++ "Acme" ++ ".pdf".
Proof.
  assert (H : ~ In " "%char (list_ascii_of_string "Acme")).
  { simpl. intros H. repeat (destruct H as [H|H]; [discriminate H|]). exact H. }
  split; [exact H|].
  exact (proj2 (proj2 (quote_file_name_has_no_blank "Acme")) H).
Defined.

(* ================================================================== *)
(** * Further properties: edge values of the calculation *)

Lemma feqb_zero_is_zero x : feqb x (float_of_Z 0) = is_zero x.
Proof. destruct x as [s|[]| |[] m e]; reflexivity. Qed.

Lemma fmul_zero_finite x y :
  is_zero x = true -> is_finite y = true -> is_zero (x * y)%f64 = true.
Proof. destruct x, y; try discriminate; reflexivity. Qed.

Lemma fadd_zero_zero x y :
  is_zero x = true -> is_zero y = true -> is_zero (x + y)%f64 = true.
Proof.
  destruct x as [[]| | |], y as [[]| | |]; try discriminate; reflexivity.
Qed.

Lemma fsub_zero_r c z :
  is_zero z = true -> same_number (c - z)%f64 c.
Proof.
  destruct z as [sz| | |]; try discriminate. intros _. unfold same_number.
  destruct c as [s|s| |s m e].
  - left. destruct s, sz; reflexivity.
  - left. destruct s; reflexivity.
  - right. split; reflexivity.
  - left. change (S754_finite s m e - S754_zero sz)%f64 with (S754_finite s m e).
    now apply feqb_refl.
Qed.

(** X13.  With no machine, no storage and no bandwidth, and finite rates,
    the estimated cost is zero and the monthly savings are the whole
    current cost. *)
Theorem no_usage_costs_nothing :
  forall s w,
    vms w = 0 ->
    feqb (storage w) (float_of_Z 0) = true ->
    feqb (bandwidth w) (float_of_Z 0) = true ->
    is_finite (np_float (VM_RATE s)) = true ->
    is_finite (np_float (STORAGE_RATE_PER_TB s)) = true ->
    is_finite (np_float (BANDWIDTH_RATE_PER_MBPS s)) = true ->
    exists cost,
      lekalink_cost s w = Ok cost
      /\ feqb cost (float_of_Z 0) = true
      /\ same_number (monthly_savings (current_cost w) cost) (current_cost w).
Proof.
  intros s w Hv Hs Hb Fv Fs Fb.
  rewrite feqb_zero_is_zero in Hs, Hb.
  assert (Hr : 0 <= vms w < 2 ^ 53) by (rewrite Hv; pow_lia).
  rewrite (lekalink_cost_in_range s w Hr), Hv.
  eexists. split; [reflexivity|].
  assert (Hm : is_zero (np_float (machines_amount 0 (VM_RATE s))) = true).
  { destruct (VM_RATE s) as [r|x]; cbn [machines_amount np_float] in *.
    - reflexivity.
    - apply fmul_zero_finite; [reflexivity|exact Fv]. }
  assert (Hz : is_zero (np_float (machines_amount 0 (VM_RATE s))
                        + storage w * np_float (STORAGE_RATE_PER_TB s)
                        + bandwidth w * np_float (BANDWIDTH_RATE_PER_MBPS s))%f64
               = true).
  { repeat apply fadd_zero_zero; [exact Hm| |]; apply fmul_zero_finite; auto. }
  split.
  - now rewrite feqb_zero_is_zero.
  - unfold monthly_savings. now apply fsub_zero_r.
Qed.

Lemma no_usage_costs_nothing_witness :
  exists cost,
    lekalink_cost initial_state empty_usage_form = Ok cost
    /\ feqb cost (float_of_Z 0) = true
    /\ same_number (monthly_savings (current_cost empty_usage_form) cost)
                   (current_cost empty_usage_form).
Proof.
  exact (no_usage_costs_nothing initial_state empty_usage_form
           eq_refl eq_refl eq_refl eq_refl eq_refl eq_refl).
Defined.

Lemma fadd_nan_l x : (S754_nan + x)%f64 = S754_nan.
Proof. reflexivity. Qed.

(** X14.  A machine price of [inf] in the sheet passes the loader's test,
    which rejects NaN only; a quote for zero machines then has the cost
    [0 * inf], and the page shows [Rnan]. *)
Theorem infinite_price_makes_the_quote_nan :
  forall e w df d u b,
    loaded_sheet e = Some (df, d, u) ->
    listed_price df d u VM_LABEL = Some (NpFloat (S754_infinity b)) ->
    vms w = 0 ->
    button w = true ->
    contact_complete w = true ->
    VM_RATE (snd (load_prices e initial_state)) = NpFloat (S754_infinity b)
    /\ lekalink_cost (snd (load_prices e initial_state)) w = Ok S754_nan
    /\ In (st_write "**LekaLink Estimated Monthly Cost:** Rnan")
          (out (snd (run e w))).
Proof.
  intros e w df d u b H Hp Hv Hb Hc.
  destruct (load_prices_loaded e initial_state df d u H) as (Hok & Hvm & _).
  rewrite Hp in Hvm.
  assert (Hcost : lekalink_cost (snd (load_prices e initial_state)) w = Ok S754_nan).
  { unfold lekalink_cost. rewrite Hv, Hvm. reflexivity. }
  split; [exact Hvm|]. split; [exact Hcost|].
  unfold run. rewrite script_runs, Hb. rewrite <- (lekalink_cost_logs _ page_events) in Hcost.
  set (s := logs _ page_events) in *.
  rewrite (on_click_complete e w s Hc), (quote_block_run e w s _ Hcost).
  apply grows_In; [apply grows_deliver|].
  rewrite out_logs. apply in_or_app. right.
  unfold results_events. right. right. left. reflexivity.
Qed.

Lemma infinite_price_makes_the_quote_nan_witness :
  In (st_write "**LekaLink Estimated Monthly Cost:** Rnan")
     (out (snd (run (env_with infinite_price_sheet LogoMissing SmtpDelivers)
                    empty_usage_form))).
Proof.
  exact (proj2 (proj2 (infinite_price_makes_the_quote_nan
                         (env_with infinite_price_sheet LogoMissing SmtpDelivers)
                         empty_usage_form infinite_price_sheet 0%nat 1%nat false
                         eq_refl eq_refl eq_refl eq_refl eq_refl))).
Defined.
